(** * The murf-mcp installer ([installation.py]): model and verified properties

    The installer is a single Python script.  It detects the host OS, makes
    sure ffmpeg is there, and merges a server entry into the desktop client's
    JSON configuration.  Every function of the script is embedded below as a
    function over an explicit world (files, console input, registry value,
    trace of effects); a Python exception is a value of [exn] carried by the
    outcome. *)

From Stdlib Require Import String Ascii ZArith QArith List Bool Lia.
From stdpp Require Import gmap strings list pretty.

Local Open Scope Z_scope.
Set Warnings "-register-all".
Set Default Proof Using "Type".

(** ** Python string operations used by the script *)

Module PyStr.

Definition nl : string := String (ascii_of_nat 10) EmptyString.
Definition dquote : string := String (ascii_of_nat 34) EmptyString.

(** [needle in hay] on two [str]: substring test. *)
Fixpoint contains (needle hay : string) : bool :=
  String.prefix needle hay ||
  match hay with
  | EmptyString => false
  | String _ rest => contains needle rest
  end.

(** [s.split(sep)] for a one-character separator: the pieces between the
    separators, empty pieces kept, never the empty list. *)
Fixpoint split (sep : ascii) (s : string) : list string :=
  match s with
  | EmptyString => [EmptyString]
  | String c rest =>
      if Ascii.eqb c sep then EmptyString :: split sep rest
      else match split sep rest with
           | [] => [String c EmptyString]
           | piece :: pieces => String c piece :: pieces
           end
  end.

(** [c in s] for a one-character [c]. *)
Fixpoint has_char (c : ascii) (s : string) : bool :=
  match s with
  | EmptyString => false
  | String d rest => Ascii.eqb d c || has_char c rest
  end.

(** The ASCII characters [str.strip()] removes. *)
Definition is_ws (c : ascii) : bool :=
  let n := nat_of_ascii c in
  ((9 <=? n) && (n <=? 13) || (28 <=? n) && (n <=? 32))%nat.

Fixpoint lstrip (s : string) : string :=
  match s with
  | EmptyString => EmptyString
  | String c rest => if is_ws c then lstrip rest else s
  end.

Fixpoint rstrip (s : string) : string :=
  match s with
  | EmptyString => EmptyString
  | String c rest =>
      match rstrip rest with
      | EmptyString => if is_ws c then EmptyString else String c EmptyString
      | kept => String c kept
      end
  end.

Definition strip (s : string) : string := rstrip (lstrip s).

(** [l.count(x)] on a list of strings. *)
Definition count (x : string) (l : list string) : nat :=
  length (List.filter (String.eqb x) l).

End PyStr.

(** ** JSON documents as Python sees them

    [json.load] yields [None], [bool], [int], [float], [str], [list] and
    [dict] values.  A [dict] keeps its keys in insertion order, and
    [json.dump] writes them in that order, so a dict is an association list:
    [d[k] = v] overwrites the value in place when [k] is there and appends
    the pair otherwise. *)

Inductive json : Type :=
| JNull
| JBool (b : bool)
| JInt (n : Z)
| JFloat (repr : string)
| JStr (s : string)
| JArr (items : list json)
| JObj (fields : list (string * json)).

Definition dict : Type := list (string * json).

Fixpoint dict_get (k : string) (d : dict) : option json :=
  match d with
  | [] => None
  | (k', v) :: rest => if String.eqb k' k then Some v else dict_get k rest
  end.

Fixpoint dict_set (k : string) (v : json) (d : dict) : dict :=
  match d with
  | [] => [(k, v)]
  | (k', v') :: rest =>
      if String.eqb k' k then (k', v) :: rest else (k', v') :: dict_set k v rest
  end.

Definition dict_keys (d : dict) : list string := map fst d.

(** The pairs of [d] under a key other than [k], in their order. *)
Definition others (k : string) (d : dict) : dict :=
  List.filter (fun kv => negb (String.eqb (fst kv) k)) d.

(** The text codec is Python's [json] module, which is not part of the
    script: [json_load] is [json.load] ([None] when it raises
    [JSONDecodeError]) and [json_dump] is [json.dump(_, f, indent=2)]. *)
Class JsonCodec : Type := {
  json_load : string -> option json;
  json_dump : json -> string
}.

(** ** The host and the mutable world *)

(** Python exceptions the script can meet.  [SystemExit] is what [sys.exit]
    raises; it is not an [Exception], so [except Exception] lets it pass. *)
Inductive exn : Type :=
| CalledProcessError
| FileNotFoundError
| JSONDecodeError
| AttributeError
| TypeError
| EOFError
| RuntimeError
| ImportError
| OSError
| KeyError
| SystemExit (code : Z).

(** Read-only facts about the machine the script runs on. *)
Record host : Type := {
  platform_system : string;                  (* platform.system() *)
  python_version : string;                   (* platform.python_version() *)
  (* subprocess.run(cmd, ...): [None] when the executable cannot be started
     (Python raises FileNotFoundError), else (returncode, stdout) *)
  subprocess : list string -> option (Z * string);
  environ_SHELL : option string;             (* os.environ.get("SHELL") *)
  environ_APPDATA : option string;           (* os.getenv('APPDATA') *)
  home : string;                             (* Path.home() *)
  os_sep : string;                           (* separator used by Path's "/" *)
  os_pathsep : ascii;                        (* os.pathsep *)
  has_winreg : bool;                         (* does [import winreg] succeed *)
  openkey_error : option exn;                (* what reg.OpenKey raises, if anything *)
  urlretrieve_error : option exn;            (* what the download raises, if anything *)
  extractall_error : option exn;             (* what the extraction raises, if anything *)
  (* str(d) of the directories under C:/ffmpeg after the extraction, in
     iterdir() order *)
  extracted_dirs : list string
}.

(** An effect on the outside, as it is recorded in the trace. *)
Inductive event : Type :=
| Prompt (msg : string)               (* input(msg) *)
| Run (cmd : list string)             (* subprocess.run(cmd) *)
| WriteFile (path content : string)   (* a file gets this content *)
| SetPath (value : string)            (* reg.SetValueEx(key, 'PATH', ...) *)
| Download                            (* urllib.request.urlretrieve *)
| Extract.                            (* ZipFile.extractall *)

Record world : Type := {
  files : gmap string string;   (* text files by path *)
  stdin : list string;          (* lines the user will type *)
  reg_PATH : option string;     (* HKCU\Environment\PATH, None when unset *)
  trace : list event            (* effects so far, most recent first *)
}.

Definition with_files (f : gmap string string) (w : world) : world :=
  {| files := f; stdin := stdin w; reg_PATH := reg_PATH w; trace := trace w |}.
Definition with_stdin (i : list string) (w : world) : world :=
  {| files := files w; stdin := i; reg_PATH := reg_PATH w; trace := trace w |}.
Definition with_reg_PATH (p : option string) (w : world) : world :=
  {| files := files w; stdin := stdin w; reg_PATH := p; trace := trace w |}.
Definition log (e : event) (w : world) : world :=
  {| files := files w; stdin := stdin w; reg_PATH := reg_PATH w; trace := e :: trace w |}.

(** How a call ends: with a value, with a raised exception, or (only for the
    fuel-bounded recursion of [update_config_file]) out of fuel. *)
Inductive outcome (A : Type) : Type :=
| Val (a : A)
| Exc (e : exn)
| OutOfFuel.
Arguments Val {A} a.
Arguments Exc {A} e.
Arguments OutOfFuel {A}.

Definition M (A : Type) : Type := world -> outcome A * world.

Definition ret {A} (a : A) : M A := fun w => (Val a, w).
Definition raise {A} (e : exn) : M A := fun w => (Exc e, w).
Definition bind {A B} (c : M A) (k : A -> M B) : M B :=
  fun w =>
    match c w with
    | (Val a, w') => k a w'
    | (Exc e, w') => (Exc e, w')
    | (OutOfFuel, w') => (OutOfFuel, w')
    end.

Declare Scope py_scope.
Delimit Scope py_scope with py.
Notation "'let*' x ':=' c 'in' k" := (bind c (fun x => k))
  (at level 10, x name, c at level 100, k at level 200) : py_scope.
Notation "c1 ';;' c2" := (bind c1 (fun _ => c2))
  (at level 100, c2 at level 200, right associativity) : py_scope.
Local Open Scope py_scope.

(** [try: body except <classes>: handler], where [catches e] says whether
    the except clause matches [e]. *)
Definition try_except {A} (body : M A) (catches : exn -> bool) (handler : exn -> M A) : M A :=
  fun w =>
    match body w with
    | (Exc e, w') => if catches e then handler e w' else (Exc e, w')
    | r => r
    end.

Definition is_Exception (e : exn) : bool :=
  match e with SystemExit _ => false | _ => true end.
Definition is_CalledProcessError (e : exn) : bool :=
  match e with CalledProcessError => true | _ => false end.
Definition is_FileNotFoundError (e : exn) : bool :=
  match e with FileNotFoundError => true | _ => false end.
Definition is_ImportError (e : exn) : bool :=
  match e with ImportError => true | _ => false end.

Definition get : M world := fun w => (Val w, w).
Definition modify (f : world -> world) : M unit := fun w => (Val tt, f w).
Definition raise_if {A} (err : option exn) (a : A) : M A :=
  match err with Some e => raise e | None => ret a end.

(** ** The script

    [print] only writes to the terminal and is left out.  [files] holds the
    text files the script reads and writes itself: the configuration file
    and the shell profile.  The temporary zip file of the Windows installer
    and the tree [extractall] unpacks under C:/ffmpeg are binary data the
    script never reads back; they live outside [files], so nothing below
    speaks about them, and a statement about [files] is a statement about
    the configuration file and the shell profile only.  A [Path] is
    modelled by the string it prints as. *)

Section Script.
Context {codec : JsonCodec} (h : host).

Definition sys_exit {A} (code : Z) : M A := raise (SystemExit code).

(** [os.path.exists(p)] / [p.exists()] *)
Definition path_exists (p : string) : M bool :=
  fun w => (Val (match files w !! p with Some _ => true | None => false end), w).

(** [input(msg)]: one line from the console, [EOFError] when there is none. *)
Definition input (msg : string) : M string :=
  fun w =>
    match stdin w with
    | [] => (Exc EOFError, log (Prompt msg) w)
    | line :: rest => (Val line, with_stdin rest (log (Prompt msg) w))
    end.

(** [subprocess.run(cmd, capture_output=True, text=True, check=check)]:
    with [check] a non-zero return code raises [CalledProcessError]. *)
Definition subprocess_run (cmd : list string) (check : bool) : M (Z * string) :=
  fun w =>
    let w' := log (Run cmd) w in
    match subprocess h cmd with
    | None => (Exc FileNotFoundError, w')
    | Some (returncode, stdout) =>
        if check && negb (returncode =? 0) then (Exc CalledProcessError, w')
        else (Val (returncode, stdout), w')
    end.

Definition read_text (p : string) : M string :=
  fun w =>
    match files w !! p with
    | Some text => (Val text, w)
    | None => (Exc FileNotFoundError, w)
    end.

(** The file at [p] gets the content [text] (seek(0), write, truncate). *)
Definition write_text (p text : string) : M unit :=
  modify (fun w => log (WriteFile p text) (with_files (<[p := text]> (files w)) w)).

(** [open("a")] then [write(block)]: creates the file when it is missing. *)
Definition append_text (p block : string) : M unit :=
  modify (fun w =>
    let text := default EmptyString (files w !! p) +:+ block in
    log (WriteFile p text) (with_files (<[p := text]> (files w)) w)).

(** [a / b] on paths *)
Definition path_join (a b : string) : string := a +:+ os_sep h +:+ b.

(** *** get_uvx_path *)
Definition get_uvx_path : M json :=
  try_except
    (let os_type := platform_system h in
     if (os_type =? "Linux")%string || (os_type =? "Darwin")%string then
       let* result := subprocess_run ["which"; "uvx"] true in
       ret (JStr (PyStr.strip (snd result)))
     else if (os_type =? "Windows")%string then
       let* result := subprocess_run ["where"; "uvx"] true in
       ret (JStr (PyStr.strip (snd result)))
     else ret JNull)
    is_CalledProcessError
    (fun _ => ret (JStr "uvx")).

(** *** update_config_file *)

(** The two prompts. *)
Definition api_key_prompt : string := "Please enter your Murf API key: ".
Definition path_prompt : string := "Please enter the full path to the config file: ".

Definition is_None (v : json) : bool :=
  match v with JNull => true | _ => false end.

(** [v.get(k)]: only a dict has the method. *)
Definition py_get (k : string) (v : json) : M json :=
  match v with
  | JObj d => ret (default JNull (dict_get k d))
  | _ => raise AttributeError
  end.

(** [v[k]] for a string key *)
Definition py_getitem (k : string) (v : json) : M json :=
  match v with
  | JObj d => match dict_get k d with Some x => ret x | None => raise KeyError end
  | _ => raise TypeError
  end.

(** [v[k] = x] for a string key; the value is the mutated object. *)
Definition py_setitem (k : string) (x : json) (v : json) : M json :=
  match v with
  | JObj d => ret (JObj (dict_set k x d))
  | _ => raise TypeError
  end.

Definition fresh_config : json := JObj [("mcpServers", JObj [])].

Definition server_entry (uvx_path : json) (murfAPIKey : string) : json :=
  JObj [("command", uvx_path);
        ("args", JArr [JStr "murf-mcp"]);
        ("env", JObj [("MURF_API_KEY", JStr murfAPIKey)])].

(** Lines 32-43 on the parsed document: the guard that starts afresh, then
    [config["mcpServers"]["Murf"] = {...}].  The inner dict is mutated in
    place, so [config] sees the new entry at the key's old position. *)
Definition merge_entry (config : json) (murfAPIKey : string) : M json :=
  let* no_servers :=
    (if is_None config then ret true
     else let* servers := py_get "mcpServers" config in ret (is_None servers)) in
  let config := if (no_servers : bool) then fresh_config else config in
  let* uvx_path := get_uvx_path in
  let* servers := py_getitem "mcpServers" config in
  let* servers' := py_setitem "Murf" (server_entry uvx_path murfAPIKey) servers in
  py_setitem "mcpServers" servers' config.

Fixpoint update_config_file (fuel : nat) (configFilePath : string) : M unit :=
  match fuel with
  | O => fun w => (OutOfFuel, w)
  | S fuel' =>
      let* there := path_exists configFilePath in
      if (there : bool) then
        let* murfAPIKey := input api_key_prompt in
        let* text := read_text configFilePath in
        let* config :=
          (match json_load text with
           | Some v => ret v
           | None => raise JSONDecodeError
           end) in
        let* config' := merge_entry config murfAPIKey in
        write_text configFilePath (json_dump config')
      else
        let* new_path := input path_prompt in
        let* there' := path_exists new_path in
        if (there' : bool) then update_config_file fuel' new_path
        else raise FileNotFoundError
  end.

(** The two except clauses that close both platform branches:
    [except FileNotFoundError] and [except Exception] each print and call
    [sys.exit(1)]. *)
Definition exit_on_error (body : M unit) : M unit :=
  try_except body is_Exception
    (fun e => if is_FileNotFoundError e then sys_exit 1 else sys_exit 1).

Definition ensure_python : M unit :=
  if negb (python_version h =? "3.11.11")%string then
    let* _ := subprocess_run
                ["uv"; "run"; "--python"; "pypy@3.11.11"; "--"; "python"; "--version"]
                false in
    ret tt
  else ret tt.

(** *** install_on_macOS *)
Definition install_on_macOS (fuel : nat) : M unit :=
  exit_on_error
    (ensure_python ;;
     let* result := subprocess_run ["which"; "brew"] true in
     if negb (fst result =? 0) then ret tt
     else
       let* result := subprocess_run ["which"; "ffmpeg"] true in
       (if fst result =? 0 then ret tt
        else let* _ := subprocess_run ["brew"; "install"; "ffmpeg"] false in ret tt) ;;
       let configFilePath :=
         home h +:+ "/Library/Application Support/Claude/claude_desktop_config.json" in
       update_config_file fuel configFilePath).

(** *** detect_shell_config *)
Definition detect_shell_config : string :=
  let shell := default EmptyString (environ_SHELL h) in
  if PyStr.contains "zsh" shell then path_join (home h) ".zshrc"
  else if PyStr.contains "bash" shell then path_join (home h) ".bashrc"
  else path_join (home h) ".profile".

(** *** update_shell_config (nested in install_ffmpeg_on_windows) *)
Definition marker : string := "# >>> Added by murf-mcp to include ffmpeg from uv <<<".

Definition export_line (ffmpeg_dir : string) : string :=
  "export PATH=" +:+ PyStr.dquote +:+ ffmpeg_dir +:+ ":$PATH" +:+ PyStr.dquote.

Definition marker_block (ffmpeg_dir : string) : string :=
  PyStr.nl +:+ marker +:+ PyStr.nl +:+ export_line ffmpeg_dir +:+ PyStr.nl
  +:+ "# <<< End of murf-mcp changes >>>" +:+ PyStr.nl.

Definition update_shell_config (ffmpeg_dir config_file : string) : M unit :=
  let* there := path_exists config_file in
  let* config_text := (if (there : bool) then read_text config_file else ret EmptyString) in
  if PyStr.contains marker config_text then ret tt
  else append_text config_file (marker_block ffmpeg_dir).

(** *** reporthook (nested in install_ffmpeg_on_windows)

    The value is the percentage the hook computes, before it is written
    with two decimals.  Python's [/] on two ints is the exact quotient
    rounded to the nearest float; the model keeps the exact quotient.
    Rounding is monotone and leaves 0 and 100 as they are, so what carries
    over to the float is the order and the non-strict comparisons with 0
    and 100: two quotients that differ may round to the same float, and a
    quotient just above 100 may be written as 100.00. *)
Definition reporthook (block_num block_size total_size : Z) : Q :=
  let downloaded := block_num * block_size in
  if 0 <? total_size then (inject_Z (downloaded * 100) / inject_Z total_size)%Q
  else 0%Q.

(** *** install_ffmpeg_on_windows

    [Download] and [Extract] record that [urlretrieve] and [extractall]
    were called; what they leave on disk (the temporary zip, the unpacked
    tree, also after a failure half way) is not modelled. *)

(** The [with reg.OpenKey(...)] block, lines 150-169. *)
Definition register_bin_path (bin_path : string) : M unit :=
  raise_if (openkey_error h) tt ;;
  let* w := get in
  let current_path := default EmptyString (reg_PATH w) in
  let path_entries := PyStr.split (os_pathsep h) current_path in
  if negb (bool_decide (bin_path ∈ path_entries)) then
    let new_path_value :=
      if negb (current_path =? "")%string
      then current_path +:+ String (os_pathsep h) EmptyString +:+ bin_path
      else bin_path in
    modify (fun w => log (SetPath new_path_value) (with_reg_PATH (Some new_path_value) w)) ;;
    let config_file := detect_shell_config in
    update_shell_config bin_path config_file
  else ret tt.

Definition install_ffmpeg_on_windows : M unit :=
  modify (log Download) ;;
  raise_if (urlretrieve_error h) tt ;;
  modify (log Extract) ;;
  raise_if (extractall_error h) tt ;;
  match extracted_dirs h with
  | [] => raise RuntimeError
  | first_dir :: _ =>
      let bin_path := path_join first_dir "bin" in
      (* try: import winreg / except ImportError: print(...); return *)
      let* imported :=
        try_except
          (if has_winreg h then ret true else raise ImportError)
          is_ImportError (fun _ => ret false) in
      if (imported : bool) then register_bin_path bin_path
      else ret tt
  end.

(** *** install_on_windows *)
Definition install_on_windows (fuel : nat) : M unit :=
  exit_on_error
    (ensure_python ;;
     let* result := subprocess_run ["where"; "ffmpeg"] true in
     (if fst result =? 0 then ret tt else install_ffmpeg_on_windows) ;;
     let* configFilePath :=
       (match environ_APPDATA h with
        | Some appdata =>
            ret (path_join (path_join appdata "Claude") "claude_desktop_config.json")
        | None => raise TypeError
        end) in
     update_config_file fuel configFilePath).

(** *** main *)
Definition main (fuel : nat) : M unit :=
  let os_type := platform_system h in
  if (os_type =? "Linux")%string then ret tt
  else if (os_type =? "Darwin")%string then install_on_macOS fuel
  else if (os_type =? "Windows")%string then install_on_windows fuel
  else sys_exit 1.

End Script.

(** The status the process ends with: 0 after a normal return, the argument
    of [sys.exit], 1 after an uncaught exception. *)
Definition exit_status {A} (o : outcome A) : option Z :=
  match o with
  | Val _ => Some 0
  | Exc (SystemExit code) => Some code
  | Exc _ => Some 1
  | OutOfFuel => None
  end.

(** How many times an effect satisfying [p] was performed. *)
Definition count_events (p : event -> bool) (w : world) : nat :=
  length (List.filter p (trace w)).

Definition is_SetPath (e : event) : bool :=
  match e with SetPath _ => true | _ => false end.
Definition is_WriteFile (e : event) : bool :=
  match e with WriteFile _ _ => true | _ => false end.
Definition is_Prompt (msg : string) (e : event) : bool :=
  match e with Prompt m => (m =? msg)%string | _ => false end.
Definition is_Run (cmd : list string) (e : event) : bool :=
  match e with Run c => bool_decide (c = cmd) | _ => false end.

(** ** A reference codec

    An executable instance of [JsonCodec] for documents over ASCII strings
    and integers, in the layout of [json.dump(_, f, indent=2)].  The
    theorems below hold for every codec; this one runs the examples. *)

Module RefCodec.

Definition dq : ascii := ascii_of_nat 34.

Fixpoint spaces (n : nat) : string :=
  match n with O => EmptyString | S n' => String " " (spaces n') end.

Fixpoint escape (s : string) : string :=
  match s with
  | EmptyString => EmptyString
  | String c rest =>
      if Ascii.eqb c dq then String "\" (String dq (escape rest))
      else if Ascii.eqb c "\" then String "\" (String "\" (escape rest))
      else if Ascii.eqb c (ascii_of_nat 10) then String "\" (String "n" (escape rest))
      else if Ascii.eqb c (ascii_of_nat 9) then String "\" (String "t" (escape rest))
      else String c (escape rest)
  end.

Definition quote (s : string) : string :=
  String dq (escape s) +:+ String dq EmptyString.

Fixpoint join (sep : string) (l : list string) : string :=
  match l with
  | [] => EmptyString
  | [x] => x
  | x :: rest => x +:+ sep +:+ join sep rest
  end.

Fixpoint dump (ind : nat) (v : json) : string :=
  let inner := (ind + 2)%nat in
  let sep := "," +:+ PyStr.nl +:+ spaces inner in
  match v with
  | JNull => "null"
  | JBool true => "true"
  | JBool false => "false"
  | JInt n => pretty n
  | JFloat repr => repr
  | JStr s => quote s
  | JArr [] => "[]"
  | JArr items =>
      "[" +:+ PyStr.nl +:+ spaces inner
      +:+ join sep ((fix each (l : list json) : list string :=
                       match l with
                       | [] => []
                       | x :: rest => dump inner x :: each rest
                       end) items)
      +:+ PyStr.nl +:+ spaces ind +:+ "]"
  | JObj [] => "{}"
  | JObj fields =>
      "{" +:+ PyStr.nl +:+ spaces inner
      +:+ join sep ((fix each (l : list (string * json)) : list string :=
                       match l with
                       | [] => []
                       | (k, x) :: rest => (quote k +:+ ": " +:+ dump inner x) :: each rest
                       end) fields)
      +:+ PyStr.nl +:+ spaces ind +:+ "}"
  end.

Fixpoint skip_ws (s : string) : string :=
  match s with
  | String c rest =>
      if Ascii.eqb c " " || Ascii.eqb c (ascii_of_nat 10)
         || Ascii.eqb c (ascii_of_nat 13) || Ascii.eqb c (ascii_of_nat 9)
      then skip_ws rest else s
  | EmptyString => s
  end.

(** The text after the literal [lit], when [s] starts with it. *)
Fixpoint after (lit s : string) : option string :=
  match lit, s with
  | EmptyString, _ => Some s
  | String a lit', String b s' => if Ascii.eqb a b then after lit' s' else None
  | _, EmptyString => None
  end.

(** The body of a string literal up to its closing quote. *)
Fixpoint parse_chars (s : string) : option (string * string) :=
  match s with
  | EmptyString => None
  | String c rest =>
      if Ascii.eqb c dq then Some (EmptyString, rest)
      else if Ascii.eqb c "\" then
        match rest with
        | String e rest' =>
            let unescaped :=
              if Ascii.eqb e "n" then Some (ascii_of_nat 10)
              else if Ascii.eqb e "t" then Some (ascii_of_nat 9)
              else if Ascii.eqb e dq || Ascii.eqb e "\" || Ascii.eqb e "/" then Some e
              else None in
            match unescaped, parse_chars rest' with
            | Some u, Some (body, tail) => Some (String u body, tail)
            | _, _ => None
            end
        | EmptyString => None
        end
      else if (nat_of_ascii c <? 32)%nat then None
      else match parse_chars rest with
           | Some (body, tail) => Some (String c body, tail)
           | None => None
           end
  end.

Definition digit (c : ascii) : option Z :=
  let n := nat_of_ascii c in
  if (48 <=? n)%nat && (n <=? 57)%nat then Some (Z.of_nat (n - 48)) else None.

Fixpoint parse_digits (acc : Z) (s : string) : Z * string :=
  match s with
  | String c rest =>
      match digit c with
      | Some d => parse_digits (10 * acc + d) rest
      | None => (acc, s)
      end
  | EmptyString => (acc, s)
  end.

Definition parse_int (s : string) : option (json * string) :=
  let '(negative, body) :=
    match s with
    | String "-" rest => (true, rest)
    | _ => (false, s)
    end in
  match body with
  | String c _ =>
      match digit c with
      | Some _ =>
          let '(n, tail) := parse_digits 0 body in
          Some (JInt (if (negative : bool) then - n else n), tail)
      | None => None
      end
  | EmptyString => None
  end.

Definition with_tail {A B} (f : A -> B) (r : option (A * string)) : option (B * string) :=
  match r with Some (a, tail) => Some (f a, tail) | None => None end.

Fixpoint parse_value (fuel : nat) (s : string) : option (json * string) :=
  match fuel with
  | O => None
  | S fuel' =>
      let s := skip_ws s in
      match s with
      | EmptyString => None
      | String c rest =>
          if Ascii.eqb c dq then with_tail JStr (parse_chars rest)
          else if Ascii.eqb c "[" then
            match skip_ws rest with
            | String "]" tail => Some (JArr [], tail)
            | _ => with_tail JArr (parse_items fuel' rest)
            end
          else if Ascii.eqb c "{" then
            match skip_ws rest with
            | String "}" tail => Some (JObj [], tail)
            | _ => with_tail
                     (fun fields => JObj (fold_left (fun d kv => dict_set (fst kv) (snd kv) d) fields []))
                     (parse_fields fuel' rest)
            end
          else if Ascii.eqb c "n" then with_tail (fun _ => JNull) (option_map (pair tt) (after "null" s))
          else if Ascii.eqb c "t" then with_tail (fun _ => JBool true) (option_map (pair tt) (after "true" s))
          else if Ascii.eqb c "f" then with_tail (fun _ => JBool false) (option_map (pair tt) (after "false" s))
          else parse_int s
      end
  end
with parse_items (fuel : nat) (s : string) : option (list json * string) :=
  match fuel with
  | O => None
  | S fuel' =>
      match parse_value fuel' s with
      | Some (v, tail) =>
          match skip_ws tail with
          | String "," tail' => with_tail (cons v) (parse_items fuel' tail')
          | String "]" tail' => Some ([v], tail')
          | _ => None
          end
      | None => None
      end
  end
with parse_fields (fuel : nat) (s : string) : option (list (string * json) * string) :=
  match fuel with
  | O => None
  | S fuel' =>
      match skip_ws s with
      | String c rest =>
          if Ascii.eqb c dq then
            match parse_chars rest with
            | Some (k, tail) =>
                match skip_ws tail with
                | String ":" tail' =>
                    match parse_value fuel' tail' with
                    | Some (v, tail'') =>
                        match skip_ws tail'' with
                        | String "," more => with_tail (cons (k, v)) (parse_fields fuel' more)
                        | String "}" after_obj => Some ([(k, v)], after_obj)
                        | _ => None
                        end
                    | None => None
                    end
                | _ => None
                end
            | None => None
            end
          else None
      | EmptyString => None
      end
  end.

Definition load (s : string) : option json :=
  match parse_value (2 * String.length s + 2) s with
  | Some (v, tail) =>
      match skip_ws tail with
      | EmptyString => Some v
      | _ => None
      end
  | None => None
  end.

#[export] Instance codec : JsonCodec := {| json_load := load; json_dump := dump 0 |}.

End RefCodec.

(** ** Re-running, and the scenarios of the examples *)

(** [n] successive runs of the same call, each on the world the previous
    one left. *)
Fixpoint repeat_run (n : nat) (c : M unit) : M unit :=
  match n with
  | O => ret tt
  | S n' => c ;; repeat_run n' c
  end.

(** [w'] is [w] after some subprocess calls and nothing else. *)
Definition only_runs (w w' : world) : Prop :=
  files w' = files w /\ stdin w' = stdin w /\ reg_PATH w' = reg_PATH w
  /\ exists cmds, trace w' = map Run cmds ++ trace w.

(** A document the guard of line 33 replaces by a fresh one: [None], or a
    dict whose [get("mcpServers")] is [None]. *)
Definition starts_afresh (config : json) : Prop :=
  config = JNull
  \/ exists d, config = JObj d
       /\ (dict_get "mcpServers" d = None \/ dict_get "mcpServers" d = Some JNull).

(** The document written after a fresh start. *)
Definition fresh_document (uvx : json) (key : string) : json :=
  JObj [("mcpServers", JObj [("Murf", server_entry uvx key)])].

(** The document written when [d] already maps "mcpServers" to [servers]. *)
Definition upserted_document (d servers : dict) (uvx : json) (key : string) : json :=
  JObj (dict_set "mcpServers" (JObj (dict_set "Murf" (server_entry uvx key) servers)) d).

(** The value line 161 computes for the PATH variable. *)
Definition appended (sep : ascii) (cur bin : string) : string :=
  if negb (cur =? "")%string
  then cur +:+ String sep EmptyString +:+ bin
  else bin.

Definition is_Download (e : event) : bool :=
  match e with Download => true | _ => false end.

Definition brew_install : list string := ["brew"; "install"; "ffmpeg"].

(** Concrete hosts, documents and worlds for the examples. *)
Module Scenario.

Definition config_path : string :=
  "/Users/u/Library/Application Support/Claude/claude_desktop_config.json".

Definition typed_path : string := "/Users/u/claude_desktop_config.json".

(** A Mac with Homebrew, where [which ffmpeg] and [which uvx] end with the
    given return codes. *)
Definition mac (ffmpeg_rc uvx_rc : Z) : host := {|
  platform_system := "Darwin";
  python_version := "3.11.11";
  subprocess := fun cmd =>
    if bool_decide (cmd = ["which"; "brew"]) then Some (0, "/opt/homebrew/bin/brew" +:+ PyStr.nl)
    else if bool_decide (cmd = ["which"; "ffmpeg"]) then
      Some (ffmpeg_rc, if ffmpeg_rc =? 0 then "/opt/homebrew/bin/ffmpeg" +:+ PyStr.nl else EmptyString)
    else if bool_decide (cmd = ["which"; "uvx"]) then
      Some (uvx_rc, if uvx_rc =? 0 then "/usr/local/bin/uvx" +:+ PyStr.nl else EmptyString)
    else if bool_decide (cmd = brew_install) then Some (0, EmptyString)
    else None;
  environ_SHELL := Some "/bin/zsh";
  environ_APPDATA := None;
  home := "/Users/u";
  os_sep := "/";
  os_pathsep := ":";
  has_winreg := false;
  openkey_error := None;
  urlretrieve_error := None;
  extractall_error := None;
  extracted_dirs := []
|}.

Definition appdata_config : string := "C:\Users\u\AppData\Roaming\Claude\claude_desktop_config.json".

(** A Windows machine without ffmpeg on the path, with or without the
    registry module. *)
Definition windows (winreg : bool) : host := {|
  platform_system := "Windows";
  python_version := "3.11.11";
  subprocess := fun cmd =>
    if bool_decide (cmd = ["where"; "ffmpeg"]) then Some (1, EmptyString)
    else if bool_decide (cmd = ["where"; "uvx"]) then Some (0, "C:\Users\u\.local\bin\uvx.exe" +:+ PyStr.nl)
    else None;
  environ_SHELL := None;
  environ_APPDATA := Some "C:\Users\u\AppData\Roaming";
  home := "C:\Users\u";
  os_sep := "\";
  os_pathsep := ";";
  has_winreg := winreg;
  openkey_error := None;
  urlretrieve_error := None;
  extractall_error := None;
  extracted_dirs := ["C:\ffmpeg\ffmpeg-7.1-essentials_build"]
|}.

Definition ffmpeg_bin : string := "C:\ffmpeg\ffmpeg-7.1-essentials_build\bin".

Definition linux : host := {|
  platform_system := "Linux";
  python_version := "3.11.11";
  subprocess := fun _ => None;
  environ_SHELL := Some "/bin/bash";
  environ_APPDATA := None;
  home := "/home/u";
  os_sep := "/";
  os_pathsep := ":";
  has_winreg := false;
  openkey_error := None;
  urlretrieve_error := None;
  extractall_error := None;
  extracted_dirs := []
|}.

Definition other_server : json :=
  JObj [("command", JStr "npx"); ("args", JArr [JStr "other-mcp"])].

Definition doc_with_servers : json :=
  JObj [("theme", JStr "dark"); ("mcpServers", JObj [("Other", other_server)])].

Definition doc_without_servers : json :=
  JObj [("theme", JStr "dark"); ("scale", JInt 2)].

Definition world_with (path text : string) (typed : list string) : world :=
  {| files := {[ path := text ]}; stdin := typed; reg_PATH := None; trace := [] |}.

Definition world_with_PATH (value : option string) (profile : gmap string string) : world :=
  {| files := profile; stdin := []; reg_PATH := value; trace := [] |}.

End Scenario.

Module Cases.
Import Scenario.
#[local] Existing Instance RefCodec.codec.

Definition uvx_found : json := JStr "/usr/local/bin/uvx".

(** [doc_with_servers] after the merge of the key "KEY". *)
Definition merged_with_servers : json :=
  JObj [("theme", JStr "dark");
        ("mcpServers", JObj [("Other", other_server);
                              ("Murf", server_entry uvx_found "KEY")])].

Definition doc_null_servers : json :=
  JObj [("scale", JInt 2); ("mcpServers", JNull)].

(** The default config file holds [doc]; the user types [typed]. *)
Definition config_world (doc : json) (typed : list string) : world :=
  world_with config_path (json_dump doc) typed.

(** The default config file is missing, another one is there. *)
Definition moved_config_world (typed : list string) : world :=
  world_with typed_path (json_dump doc_with_servers) typed.

Definition profile : string := "C:\Users\u\.profile".

(** PATH without the ffmpeg directory, profile without the marker. *)
Definition unpatched : world :=
  world_with_PATH (Some "C:\Windows") {[ profile := "# mine" ]}.

(** PATH with the ffmpeg directory, profile still without the marker. *)
Definition path_only : world :=
  world_with_PATH (Some ("C:\Windows;" +:+ ffmpeg_bin)) {[ profile := "# mine" ]}.

(** The run of [install_on_windows] from the point where ffmpeg was found
    missing (lines 189-192). *)
Definition install_then_merge (h : host) : M unit :=
  exit_on_error
    (install_ffmpeg_on_windows h ;; update_config_file h 2 appdata_config).

End Cases.

(** ** Effects a run may have, and more scenarios *)

(** Effects that leave ffmpeg and the PATH variable alone: prompts, file
    writes, and subprocess calls other than [brew install ffmpeg]. *)
Definition harmless (e : event) : bool :=
  match e with
  | Prompt _ | WriteFile _ _ => true
  | Run cmd => negb (bool_decide (cmd = brew_install))
  | SetPath _ | Download | Extract => false
  end.

(** [w'] is [w] after effects that all satisfy [allowed], with the PATH
    variable as it was. *)
Definition step_ok (allowed : event -> bool) (w w' : world) : Prop :=
  reg_PATH w' = reg_PATH w
  /\ exists evs, trace w' = evs ++ trace w /\ forallb allowed evs = true.

Definition is_Extract (e : event) : bool :=
  match e with Extract => true | _ => false end.

Definition is_any_Prompt (e : event) : bool :=
  match e with Prompt _ => true | _ => false end.

(** A value that is neither a dict nor [None]. *)
Definition not_dict_nor_None (v : json) : bool :=
  match v with JNull | JObj _ => false | _ => true end.

(** The default config paths of lines 73 and 191. *)
Definition macos_config_path (h : host) : string :=
  home h +:+ "/Library/Application Support/Claude/claude_desktop_config.json".

Definition windows_config_path (h : host) (appdata : string) : string :=
  path_join h (path_join h appdata "Claude") "claude_desktop_config.json".

Definition uv_run : list string :=
  ["uv"; "run"; "--python"; "pypy@3.11.11"; "--"; "python"; "--version"].

Module MoreCases.
Import Scenario Cases.

(** A Mac on which [which brew] ends with the given return code. *)
Definition mac_brew (brew_rc : Z) : host := {|
  platform_system := "Darwin";
  python_version := "3.12.1";
  subprocess := fun cmd =>
    if bool_decide (cmd = uv_run) then Some (2, EmptyString)
    else if bool_decide (cmd = ["which"; "brew"]) then Some (brew_rc, EmptyString)
    else if bool_decide (cmd = ["which"; "ffmpeg"]) then Some (0, "/usr/local/bin/ffmpeg" +:+ PyStr.nl)
    else if bool_decide (cmd = ["which"; "uvx"]) then Some (0, "/usr/local/bin/uvx" +:+ PyStr.nl)
    else None;
  environ_SHELL := Some "/bin/zsh";
  environ_APPDATA := None;
  home := "/Users/u";
  os_sep := "/";
  os_pathsep := ":";
  has_winreg := false;
  openkey_error := None;
  urlretrieve_error := None;
  extractall_error := None;
  extracted_dirs := []
|}.

(** A Windows machine with ffmpeg on the path. *)
Definition windows_ready (appdata : option string) : host := {|
  platform_system := "Windows";
  python_version := "3.11.11";
  subprocess := fun cmd =>
    if bool_decide (cmd = ["where"; "ffmpeg"]) then Some (0, "C:\ffmpeg\bin\ffmpeg.exe" +:+ PyStr.nl)
    else if bool_decide (cmd = ["where"; "uvx"]) then Some (0, "C:\Users\u\.local\bin\uvx.exe" +:+ PyStr.nl)
    else None;
  environ_SHELL := None;
  environ_APPDATA := appdata;
  home := "C:\Users\u";
  os_sep := "\";
  os_pathsep := ";";
  has_winreg := true;
  openkey_error := None;
  urlretrieve_error := None;
  extractall_error := None;
  extracted_dirs := []
|}.

(** A Windows machine for the installer: what the download raises, and the
    directory the archive unpacks to. *)
Definition windows_installer (download : option exn) (dir : string) : host := {|
  platform_system := "Windows";
  python_version := "3.11.11";
  subprocess := fun _ => None;
  environ_SHELL := None;
  environ_APPDATA := Some "C:\Users\u\AppData\Roaming";
  home := "C:\Users\u";
  os_sep := "\";
  os_pathsep := ";";
  has_winreg := true;
  openkey_error := None;
  urlretrieve_error := download;
  extractall_error := None;
  extracted_dirs := [dir]
|}.

Definition doc_list_servers : json :=
  JObj [("mcpServers", JArr [JStr "Other"])].

(** A server mapping in which the user has customised the managed entry. *)
Definition custom_servers : dict :=
  [("Murf", JObj [("command", JStr "uvx"); ("args", JArr [JStr "--verbose"]);
                   ("env", JObj [("MURF_API_KEY", JStr "old"); ("DEBUG", JStr "1")])]);
   ("Other", other_server)].

Definition custom_document : dict := [("mcpServers", JObj custom_servers)].

(** [doc_with_servers] after the merge on the Windows machine. *)
Definition merged_on_windows : json :=
  JObj [("theme", JStr "dark");
        ("mcpServers",
         JObj [("Other", other_server);
               ("Murf", server_entry (JStr "C:\Users\u\.local\bin\uvx.exe") "KEY")])].

Definition roaming : string := "C:\Users\u\AppData\Roaming".

Definition build_dir : string := "C:\ffmpeg\ffmpeg-7.1-essentials_build".

Definition odd_dir : string := "C:\ffmpeg\ffmpeg;7.1".

End MoreCases.

(** A call from [w] that ended with [r] has behaved: its effects are
    harmless, it created and removed no file, it did not run out of fuel,
    and what it raised, if anything, is an ordinary [Exception]. *)
Definition well_behaved {A} (w : world) (r : outcome A * world) : Prop :=
  step_ok harmless w r.2
  /\ dom (files r.2) = dom (files w)
  /\ r.1 <> OutOfFuel
  /\ forall e, r.1 = Exc e -> is_Exception e = true.

(** * Properties *)

(** ** The model on small inputs *)

Example split_two : PyStr.split ";" "C:\a;C:\b" = ["C:\a"; "C:\b"].
Proof. reflexivity. Qed.

Example split_empty : PyStr.split ";" "" = [""].
Proof. reflexivity. Qed.

Example split_trailing : PyStr.split ";" "a;" = ["a"; ""].
Proof. reflexivity. Qed.

Example strip_which : PyStr.strip (" /usr/bin/uvx" +:+ PyStr.nl) = "/usr/bin/uvx".
Proof. reflexivity. Qed.

Example contains_mid : PyStr.contains "zsh" "/bin/zsh" = true.
Proof. reflexivity. Qed.

Example dump_small :
  RefCodec.dump 0 (JObj [("a", JInt 1); ("b", JArr [JStr "x"; JNull])])
  = "{" +:+ PyStr.nl +:+ "  " +:+ RefCodec.quote "a" +:+ ": 1," +:+ PyStr.nl
    +:+ "  " +:+ RefCodec.quote "b" +:+ ": [" +:+ PyStr.nl
    +:+ "    " +:+ RefCodec.quote "x" +:+ "," +:+ PyStr.nl
    +:+ "    null" +:+ PyStr.nl +:+ "  ]" +:+ PyStr.nl +:+ "}".
Proof. vm_compute. reflexivity. Qed.

Example load_dump_small :
  RefCodec.load (RefCodec.dump 0 (JObj [("a", JInt (-12)); ("b", JArr [JStr "x y"; JNull; JBool true]); ("c", JObj [])]))
  = Some (JObj [("a", JInt (-12)); ("b", JArr [JStr "x y"; JNull; JBool true]); ("c", JObj [])]).
Proof. vm_compute. reflexivity. Qed.

Example load_empty_text : RefCodec.load "" = None.
Proof. reflexivity. Qed.

Example load_garbage : RefCodec.load "{not json" = None.
Proof. vm_compute. reflexivity. Qed.

Example load_null : RefCodec.load "null" = Some JNull.
Proof. vm_compute. reflexivity. Qed.


(** ** Facts about the string operations *)

Section StringFacts.

Lemma prefix_append (m rest : string) : String.prefix m (m +:+ rest) = true.
Proof.
  induction m as [|c m IH]; simpl.
  - by destruct rest.
  - destruct (ascii_dec c c); [exact IH | congruence].
Qed.

Lemma prefix_append_l (m a b : string) :
  String.prefix m a = true -> String.prefix m (a +:+ b) = true.
Proof.
  revert a. induction m as [|c m IH]; intros a Hp; simpl in *.
  - by destruct (a +:+ b).
  - destruct a as [|d a]; [discriminate|]. simpl in *.
    destruct (ascii_dec c d); [by apply IH | discriminate].
Qed.

Lemma prefix_refl (s : string) : String.prefix s s = true.
Proof.
  induction s as [|c s IH]; [reflexivity|]. simpl.
  destruct (ascii_dec c c); [exact IH | congruence].
Qed.

Lemma prefix_empty (s : string) : String.prefix EmptyString s = true.
Proof. by destruct s. Qed.

Lemma contains_append_r (m a b : string) :
  PyStr.contains m b = true -> PyStr.contains m (a +:+ b) = true.
Proof.
  intros Hb. induction a as [|c a IH]; simpl; [exact Hb|].
  rewrite IH. apply orb_true_r.
Qed.

Lemma contains_append_l (m a b : string) :
  PyStr.contains m a = true -> PyStr.contains m (a +:+ b) = true.
Proof.
  induction a as [|c a IH]; simpl; intros Ha.
  - rewrite orb_false_r in Ha. destruct m; [|discriminate].
    destruct b; reflexivity.
  - apply orb_true_iff in Ha as [Ha|Ha].
    + apply orb_true_iff. left.
      change (String.prefix m (String c a +:+ b) = true).
      by apply prefix_append_l.
    + rewrite (IH Ha). apply orb_true_r.
Qed.

Lemma contains_here (m rest : string) : PyStr.contains m (m +:+ rest) = true.
Proof.
  pose proof (prefix_append m rest) as Hp.
  destruct (m +:+ rest); cbn [PyStr.contains]; by rewrite Hp.
Qed.

Lemma split_not_nil (sep : ascii) (s : string) : PyStr.split sep s <> [].
Proof.
  destruct s as [|c s]; simpl; [discriminate|].
  destruct (Ascii.eqb c sep); [discriminate|].
  destruct (PyStr.split sep s); discriminate.
Qed.

(** Splitting [a ; b] gives the pieces of [a], then those of [b]. *)
Lemma split_append (sep : ascii) (a b : string) :
  PyStr.split sep (a +:+ String sep EmptyString +:+ b)
  = PyStr.split sep a ++ PyStr.split sep b.
Proof.
  induction a as [|c a IH]; simpl.
  - by rewrite Ascii.eqb_refl.
  - rewrite IH. destruct (Ascii.eqb c sep); [reflexivity|].
    pose proof (split_not_nil sep a) as Hne.
    destruct (PyStr.split sep a); [congruence | reflexivity].
Qed.

Lemma split_no_sep (sep : ascii) (s : string) :
  PyStr.has_char sep s = false -> PyStr.split sep s = [s].
Proof.
  induction s as [|c s IH]; simpl; [reflexivity|].
  intros H. apply orb_false_iff in H as [Hc Hs].
  rewrite Hc, (IH Hs). reflexivity.
Qed.

Lemma split_piece_le (sep : ascii) (s piece : string) :
  piece ∈ PyStr.split sep s -> (String.length piece <= String.length s)%nat.
Proof.
  revert piece. induction s as [|c s IH]; simpl; intros piece Hin.
  - apply list_elem_of_singleton in Hin. subst. simpl. lia.
  - destruct (Ascii.eqb c sep).
    + apply elem_of_cons in Hin as [->|Hin]; [simpl; lia|].
      specialize (IH _ Hin). lia.
    + pose proof (split_not_nil sep s) as Hne.
      destruct (PyStr.split sep s) as [|p ps]; [congruence|].
      apply elem_of_cons in Hin as [->|Hin].
      * specialize (IH p ltac:(left)). simpl. lia.
      * specialize (IH piece ltac:(by right)). lia.
Qed.

Lemma split_piece_lt (sep : ascii) (s piece : string) :
  PyStr.has_char sep s = true ->
  piece ∈ PyStr.split sep s -> (String.length piece < String.length s)%nat.
Proof.
  revert piece. induction s as [|c s IH]; simpl; intros piece Hsep Hin; [discriminate|].
  destruct (Ascii.eqb c sep) eqn:Hc.
  - apply elem_of_cons in Hin as [->|Hin]; [simpl; lia|].
    apply split_piece_le in Hin. lia.
  - simpl in Hsep. pose proof (split_not_nil sep s) as Hne.
    destruct (PyStr.split sep s) as [|p ps]; [congruence|].
    apply elem_of_cons in Hin as [->|Hin].
    + specialize (IH p Hsep ltac:(left)). simpl. lia.
    + specialize (IH piece Hsep ltac:(by right)). lia.
Qed.

Lemma count_0 (x : string) (l : list string) : x ∉ l -> PyStr.count x l = 0%nat.
Proof.
  unfold PyStr.count. induction l as [|y l IH]; intros Hx; [reflexivity|].
  apply not_elem_of_cons in Hx as [Hne Hx]. simpl.
  destruct (String.eqb_spec x y); [congruence|]. by apply IH.
Qed.

Lemma count_app (x : string) (l1 l2 : list string) :
  PyStr.count x (l1 ++ l2) = (PyStr.count x l1 + PyStr.count x l2)%nat.
Proof. unfold PyStr.count. by rewrite List.filter_app, length_app. Qed.

(** A string is at most one of its own pieces. *)
Lemma count_self_split (sep : ascii) (s : string) :
  (PyStr.count s (PyStr.split sep s) <= 1)%nat.
Proof.
  destruct (PyStr.has_char sep s) eqn:Hsep.
  - rewrite count_0; [lia|].
    intros Hin. apply (split_piece_lt _ _ _ Hsep) in Hin. lia.
  - rewrite (split_no_sep _ _ Hsep). unfold PyStr.count. simpl.
    destruct (String.eqb s s); simpl; lia.
Qed.

End StringFacts.

(** ** The shell profile (update_shell_config) *)

Ltac unfold_M :=
  repeat (progress unfold bind, ret, raise, raise_if, modify, get, path_exists,
            read_text, write_text, append_text, try_except, sys_exit in * );
  cbv beta iota in *.

Section ShellProfile.

Lemma update_shell_config_present (dir file : string) (w : world) :
  PyStr.contains marker (default EmptyString (files w !! file)) = true ->
  update_shell_config dir file w = (Val tt, w).
Proof.
  intros Hm. unfold update_shell_config. unfold_M.
  destruct (files w !! file) as [text|] eqn:E; cbn -[PyStr.contains marker] in *;
    rewrite ?E; cbn -[PyStr.contains marker]; by rewrite Hm.
Qed.

Lemma update_shell_config_absent (dir file : string) (w : world) :
  let text := default EmptyString (files w !! file) in
  PyStr.contains marker text = false ->
  update_shell_config dir file w
  = (Val tt, log (WriteFile file (text +:+ marker_block dir))
                 (with_files (<[file := text +:+ marker_block dir]> (files w)) w)).
Proof.
  intros text Hm. unfold update_shell_config. unfold_M. subst text.
  destruct (files w !! file) as [text|] eqn:E; cbn -[PyStr.contains marker] in *;
    rewrite ?E; cbn -[PyStr.contains marker]; rewrite Hm; unfold modify; by rewrite E.
Qed.

Lemma marker_in_block (text dir : string) :
  PyStr.contains marker (text +:+ marker_block dir) = true.
Proof.
  apply contains_append_r. unfold marker_block.
  apply (contains_append_r marker PyStr.nl). apply contains_here.
Qed.

Lemma repeat_run_fixed (c : M unit) (w : world) (n : nat) :
  c w = (Val tt, w) -> repeat_run n c w = (Val tt, w).
Proof.
  intros Hc. induction n as [|n IH]; [reflexivity|].
  simpl. unfold bind. by rewrite Hc.
Qed.

(** C7. The marker block goes into the profile at most once, however often
    the patch is run: with the marker in the file, any number of runs
    write nothing and leave the world (so the file and its size) as it
    was; without it, any positive number of runs leave exactly one write,
    the old text with one block appended. *)
Theorem shell_profile_block_once (dir file : string) (w : world) (n : nat) :
  let text := default EmptyString (files w !! file) in
  let patched := text +:+ marker_block dir in
  (PyStr.contains marker text = true ->
     repeat_run n (update_shell_config dir file) w = (Val tt, w))
  /\ (PyStr.contains marker text = false ->
     repeat_run (S n) (update_shell_config dir file) w
     = (Val tt, log (WriteFile file patched)
                    (with_files (<[file := patched]> (files w)) w))
     /\ PyStr.contains marker patched = true).
Proof.
  intros text patched. split; intros Hm.
  - apply repeat_run_fixed. by apply update_shell_config_present.
  - split; [|apply marker_in_block].
    cbn [repeat_run]. unfold bind at 1.
    rewrite update_shell_config_absent by exact Hm.
    apply repeat_run_fixed. apply update_shell_config_present.
    cbn [files with_files log]. rewrite lookup_insert_eq. apply marker_in_block.
Qed.

End ShellProfile.

(** ** The persistent PATH variable (install_ffmpeg_on_windows) *)

Lemma count_events_log (p : event -> bool) (e : event) (w : world) :
  count_events p (log e w)
  = if p e then S (count_events p w) else count_events p w.
Proof. unfold count_events. simpl. by destruct (p e). Qed.

Section PersistentPath.
Context (h : host).

(** What a profile patch can change: nothing, or the profile alone. *)
Lemma update_shell_config_effect (dir file : string) (w : world) :
  exists w',
    update_shell_config dir file w = (Val tt, w')
    /\ reg_PATH w' = reg_PATH w
    /\ stdin w' = stdin w
    /\ count_events is_SetPath w' = count_events is_SetPath w
    /\ (w' = w \/ count_events is_WriteFile w' = S (count_events is_WriteFile w)).
Proof.
  destruct (PyStr.contains marker (default EmptyString (files w !! file))) eqn:Hm.
  - exists w. rewrite update_shell_config_present by exact Hm. by intuition.
  - eexists. rewrite update_shell_config_absent by exact Hm.
    split; [reflexivity|]. rewrite !count_events_log. by intuition.
Qed.

Lemma register_bin_path_present (bin : string) (w : world) :
  openkey_error h = None ->
  bin ∈ PyStr.split (os_pathsep h) (default EmptyString (reg_PATH w)) ->
  register_bin_path h bin w = (Val tt, w).
Proof.
  intros Hopen Hin. unfold register_bin_path. rewrite Hopen. unfold_M.
  by rewrite bool_decide_eq_true_2.
Qed.

Lemma register_bin_path_absent (bin : string) (w : world) :
  openkey_error h = None ->
  bin ∉ PyStr.split (os_pathsep h) (default EmptyString (reg_PATH w)) ->
  let new := appended (os_pathsep h) (default EmptyString (reg_PATH w)) bin in
  register_bin_path h bin w
  = update_shell_config bin (detect_shell_config h)
      (log (SetPath new) (with_reg_PATH (Some new) w)).
Proof.
  intros Hopen Hin new. unfold register_bin_path. rewrite Hopen. unfold_M.
  rewrite bool_decide_eq_false_2 by exact Hin. reflexivity.
Qed.

(** The read-modify-write of lines 150-169 on its own. *)
Lemma register_bin_path_update (bin : string) (w : world) :
  openkey_error h = None ->
  let sep := os_pathsep h in
  let cur := default EmptyString (reg_PATH w) in
  let w' := (register_bin_path h bin w).2 in
  (bin ∈ PyStr.split sep cur -> register_bin_path h bin w = (Val tt, w))
  /\ (bin ∉ PyStr.split sep cur ->
      let new := if (cur =? "")%string then bin
                 else cur +:+ String sep EmptyString +:+ bin in
      (register_bin_path h bin w).1 = Val tt
      /\ reg_PATH w' = Some new
      /\ count_events is_SetPath w' = S (count_events is_SetPath w)
      /\ String.prefix cur new = true
      /\ (cur <> EmptyString ->
          PyStr.split sep new = PyStr.split sep cur ++ PyStr.split sep bin)
      /\ (PyStr.count bin (PyStr.split sep new) <= 1)%nat).
Proof.
  intros Hopen sep cur w'. split; intros Hin.
  - by apply register_bin_path_present.
  - intros new. subst w'.
    rewrite (register_bin_path_absent _ _ Hopen Hin).
    fold cur. assert (appended (os_pathsep h) cur bin = new) as ->.
    { unfold appended, new. by destruct (cur =? "")%string. }
    destruct (update_shell_config_effect bin (detect_shell_config h)
                (log (SetPath new) (with_reg_PATH (Some new) w)))
      as (w1 & -> & Hreg & _ & Hcount & _).
    cbn [fst snd]. split; [reflexivity|]. split; [exact Hreg|].
    split; [rewrite Hcount; by rewrite count_events_log|].
    unfold new. destruct (String.eqb_spec cur "") as [->|Hne].
    + split; [apply prefix_empty|]. split; [congruence|].
      apply count_self_split.
    + split; [apply prefix_append|]. split; [intros _; apply split_append|].
      rewrite split_append, count_app, (count_0 _ _ Hin). apply count_self_split.
Qed.

(** With the download, the extraction and the import going well the
    installer comes down to the registry block. *)
Lemma install_ffmpeg_on_windows_registers (first_dir : string) (dirs : list string)
      (w : world) :
  urlretrieve_error h = None ->
  extractall_error h = None ->
  extracted_dirs h = first_dir :: dirs ->
  has_winreg h = true ->
  install_ffmpeg_on_windows h w
  = register_bin_path h (path_join h first_dir "bin") (log Extract (log Download w)).
Proof.
  intros Hurl Hzip Hdirs Hreg. unfold install_ffmpeg_on_windows.
  rewrite Hurl, Hzip, Hdirs, Hreg. reflexivity.
Qed.

(** C5. The read-modify-write of the user PATH by the Windows installer,
    once the archive is extracted and the registry opened.  Whatever the
    prior value (unset counts as empty): when the ffmpeg directory is one
    of its separator-delimited entries the variable is not written and
    keeps its value; otherwise it is written exactly once, the new value
    is the old one with the directory appended (after a separator when the
    old value is not empty), so the old value is a prefix of it and its
    entries are the old entries followed by those of the directory, and the
    directory is at most one of the new entries. *)
Theorem persistent_path_update (first_dir : string) (dirs : list string) (w : world) :
  urlretrieve_error h = None ->
  extractall_error h = None ->
  extracted_dirs h = first_dir :: dirs ->
  has_winreg h = true ->
  openkey_error h = None ->
  let sep := os_pathsep h in
  let bin := path_join h first_dir "bin" in
  let cur := default EmptyString (reg_PATH w) in
  let r := install_ffmpeg_on_windows h w in
  r.1 = Val tt
  /\ (bin ∈ PyStr.split sep cur ->
      reg_PATH r.2 = reg_PATH w
      /\ count_events is_SetPath r.2 = count_events is_SetPath w)
  /\ (bin ∉ PyStr.split sep cur ->
      let new := if (cur =? "")%string then bin
                 else cur +:+ String sep EmptyString +:+ bin in
      reg_PATH r.2 = Some new
      /\ count_events is_SetPath r.2 = S (count_events is_SetPath w)
      /\ String.prefix cur new = true
      /\ (cur <> EmptyString ->
          PyStr.split sep new = PyStr.split sep cur ++ PyStr.split sep bin)
      /\ (PyStr.count bin (PyStr.split sep new) <= 1)%nat).
Proof.
  intros Hurl Hzip Hdirs Hreg Hopen sep bin cur r. subst r.
  rewrite (install_ffmpeg_on_windows_registers _ _ _ Hurl Hzip Hdirs Hreg).
  fold bin. set (w0 := log Extract (log Download w)).
  destruct (register_bin_path_update bin w0 Hopen) as [Hpresent Habsent].
  change (default EmptyString (reg_PATH w0)) with cur in Hpresent, Habsent.
  change (os_pathsep h) with sep in Hpresent, Habsent.
  destruct (decide (bin ∈ PyStr.split sep cur)) as [Hin|Hout].
  - rewrite (Hpresent Hin). split; [reflexivity|]. split; [by intros _|done].
  - destruct (Habsent Hout) as (Hval & Hnew & Hcount & Hrest).
    split; [exact Hval|]. split; [done|]. intros _ new.
    split; [exact Hnew|]. split; [exact Hcount|]. exact Hrest.
Qed.

(** C10. The profile is patched only in a run that writes the PATH
    variable: a run of the Windows installer that performs no PATH write
    leaves every file as it was and writes none; in particular, with the
    ffmpeg directory already among the PATH entries, the files and the
    variable are unchanged whether or not the profile holds the marker. *)
Theorem profile_patched_only_with_path_write (w : world) :
  let r := install_ffmpeg_on_windows h w in
  (count_events is_SetPath r.2 = count_events is_SetPath w ->
     files r.2 = files w
     /\ count_events is_WriteFile r.2 = count_events is_WriteFile w)
  /\ (forall first_dir dirs,
        extracted_dirs h = first_dir :: dirs ->
        path_join h first_dir "bin"
          ∈ PyStr.split (os_pathsep h) (default EmptyString (reg_PATH w)) ->
        files r.2 = files w
        /\ reg_PATH r.2 = reg_PATH w
        /\ count_events is_WriteFile r.2 = count_events is_WriteFile w
        /\ count_events is_SetPath r.2 = count_events is_SetPath w).
Proof.
  intros r. subst r. unfold install_ffmpeg_on_windows. unfold_M.
  destruct (urlretrieve_error h) as [e1|]; [by cbn|].
  destruct (extractall_error h) as [e2|]; [by cbn|].
  destruct (extracted_dirs h) as [|first_dir dirs] eqn:Hdirs; [by cbn|].
  destruct (has_winreg h); cbn [is_ImportError]; [|split; [by cbn | by intros]].
  set (w0 := log Extract (log Download w)).
  assert (Hw0 : files w0 = files w /\ reg_PATH w0 = reg_PATH w
                /\ count_events is_WriteFile w0 = count_events is_WriteFile w
                /\ count_events is_SetPath w0 = count_events is_SetPath w)
    by done.
  destruct Hw0 as (Hf0 & Hr0 & Hwf0 & Hsp0).
  set (bin := path_join h first_dir "bin").
  assert (Hpresent :
    bin ∈ PyStr.split (os_pathsep h) (default EmptyString (reg_PATH w)) ->
    let r := register_bin_path h bin w0 in
    files r.2 = files w /\ reg_PATH r.2 = reg_PATH w
    /\ count_events is_WriteFile r.2 = count_events is_WriteFile w
    /\ count_events is_SetPath r.2 = count_events is_SetPath w).
  { intros Hin. unfold register_bin_path. unfold_M.
    destruct (openkey_error h); [done|]. cbn [reg_PATH log w0].
    by rewrite bool_decide_eq_true_2. }
  split.
  - intros Hsame.
    destruct (decide (bin ∈ PyStr.split (os_pathsep h) (default EmptyString (reg_PATH w))))
      as [Hin|Hout]; [by destruct (Hpresent Hin) as (? & ? & ? & ?)|].
    revert Hsame. unfold register_bin_path. unfold_M.
    destruct (openkey_error h); [done|]. cbn [reg_PATH log w0].
    rewrite bool_decide_eq_false_2 by exact Hout. cbn [negb].
    match goal with |- context [update_shell_config ?d ?f ?w1] =>
      destruct (update_shell_config_effect d f w1) as (w2 & -> & _ & _ & Hc & _)
    end.
    cbn [snd]. rewrite Hc, count_events_log. cbn [is_SetPath].
    fold w0. rewrite <- Hsp0.
    match goal with |- context [count_events is_SetPath ?x] =>
      change (count_events is_SetPath x) with (count_events is_SetPath w0)
    end. lia.
  - intros d ds [= <- <-] Hin. exact (Hpresent Hin).
Qed.

End PersistentPath.

(** ** Dictionaries *)

Section DictFacts.

Lemma dict_get_set_eq (k : string) (v : json) (d : dict) :
  dict_get k (dict_set k v d) = Some v.
Proof.
  induction d as [|[k' v'] d IH]; simpl.
  - by rewrite String.eqb_refl.
  - destruct (String.eqb k' k) eqn:E; simpl; by rewrite E.
Qed.

Lemma dict_get_set_ne (k k' : string) (v : json) (d : dict) :
  k <> k' -> dict_get k' (dict_set k v d) = dict_get k' d.
Proof.
  intros Hne. induction d as [|[k0 v0] d IH]; simpl.
  - destruct (String.eqb_spec k k'); [congruence | reflexivity].
  - destruct (String.eqb_spec k0 k) as [->|Hk0]; simpl.
    + destruct (String.eqb_spec k k'); [congruence | reflexivity].
    + by rewrite IH.
Qed.

Lemma dict_set_set (k : string) (v v' : json) (d : dict) :
  dict_set k v (dict_set k v' d) = dict_set k v d.
Proof.
  induction d as [|[k0 v0] d IH]; simpl.
  - by rewrite String.eqb_refl.
  - destruct (String.eqb k0 k) eqn:E; simpl; rewrite E; [reflexivity | by rewrite IH].
Qed.

(** Overwriting a key that is there keeps every key where it was. *)
Lemma dict_keys_set (k : string) (v x : json) (d : dict) :
  dict_get k d = Some x -> dict_keys (dict_set k v d) = dict_keys d.
Proof.
  induction d as [|[k0 v0] d IH]; simpl; [discriminate|].
  destruct (String.eqb k0 k); simpl; [reflexivity|].
  intros Hget. by rewrite IH.
Qed.

(** The other pairs stay, in their order. *)
Lemma dict_set_others (k : string) (v : json) (d : dict) :
  others k (dict_set k v d) = others k d.
Proof.
  unfold others. induction d as [|[k0 v0] d IH]; simpl.
  - by rewrite String.eqb_refl.
  - destruct (String.eqb k0 k) eqn:E; simpl; rewrite E; simpl; [reflexivity | by rewrite IH].
Qed.

End DictFacts.

(** ** The configuration merger (get_uvx_path, update_config_file) *)

Lemma only_runs_refl (w : world) : only_runs w w.
Proof. repeat split. by exists []. Qed.

Lemma only_runs_log (cmd : list string) (w : world) : only_runs w (log (Run cmd) w).
Proof. repeat split. by exists [cmd]. Qed.

Lemma only_runs_count (p : event -> bool) (w w' : world) :
  (forall cmd, p (Run cmd) = false) ->
  only_runs w w' -> count_events p w' = count_events p w.
Proof.
  intros Hp (_ & _ & _ & cmds & Htr). unfold count_events. rewrite Htr. clear Htr.
  induction cmds as [|c cmds IH]; [reflexivity|]. simpl. by rewrite Hp.
Qed.

Section Merger.
Context {codec : JsonCodec} (h : host).

(** The lookup of uvx reads the host only: its result is the same in every
    world, and it leaves the files, the console and the registry alone. *)
Lemma get_uvx_path_frame (w : world) :
  only_runs w (get_uvx_path h w).2
  /\ forall w0, (get_uvx_path h w0).1 = (get_uvx_path h w).1.
Proof.
  unfold get_uvx_path, subprocess_run. unfold_M.
  destruct (_ || _).
  - destruct (subprocess h ["which"; "uvx"]) as [[rc out]|]; cbn;
      [destruct (rc =? 0); cbn|]; (split; [apply only_runs_log | reflexivity]).
  - destruct (_ =? _)%string.
    + destruct (subprocess h ["where"; "uvx"]) as [[rc out]|]; cbn;
        [destruct (rc =? 0); cbn|]; (split; [apply only_runs_log | reflexivity]).
    + cbn. split; [apply only_runs_refl | reflexivity].
Qed.

Lemma merge_entry_fresh (config uvx : json) (key : string) (w : world) :
  starts_afresh config ->
  (get_uvx_path h w).1 = Val uvx ->
  merge_entry h config key w = (Val (fresh_document uvx key), (get_uvx_path h w).2).
Proof.
  intros Hfresh Huvx. unfold merge_entry. unfold_M.
  destruct (get_uvx_path h w) as [o w'] eqn:E. cbn in Huvx. subst o.
  destruct Hfresh as [->|(d & -> & [Hget|Hget])]; cbn; rewrite ?Hget; cbn;
    by rewrite E.
Qed.

Lemma merge_entry_upsert (d servers : dict) (uvx : json) (key : string) (w : world) :
  dict_get "mcpServers" d = Some (JObj servers) ->
  (get_uvx_path h w).1 = Val uvx ->
  merge_entry h (JObj d) key w
  = (Val (upserted_document d servers uvx key), (get_uvx_path h w).2).
Proof.
  intros Hget Huvx. unfold merge_entry. unfold_M.
  destruct (get_uvx_path h w) as [o w'] eqn:E. cbn in Huvx. subst o.
  cbn. rewrite Hget. cbn. rewrite E. cbn. by rewrite Hget.
Qed.

(** The merge proper reads the host and the document only. *)
Lemma merge_entry_frame (config : json) (key : string) (w : world) :
  only_runs w (merge_entry h config key w).2
  /\ forall w0, (merge_entry h config key w0).1 = (merge_entry h config key w).1.
Proof.
  destruct (get_uvx_path_frame w) as [Hruns Hsame].
  assert (Hcases :
    (exists e, forall w1, merge_entry h config key w1 = (Exc e, w1))
    \/ (exists f : json -> outcome json, forall w1,
          merge_entry h config key w1
          = (match (get_uvx_path h w1).1 with
             | Val uvx => f uvx
             | Exc e => Exc e
             | OutOfFuel => OutOfFuel
             end, (get_uvx_path h w1).2))).
  { unfold merge_entry. unfold_M.
    destruct config as [| | | | | |d];
      try (left; eexists; intros w1; cbn; reflexivity).
    - right. exists (fun uvx => Val (fresh_document uvx key)). intros w1. cbn.
      by destruct (get_uvx_path h w1) as [[uvx|e|] w2].
    - destruct (dict_get "mcpServers" d) as [servers|] eqn:Hget.
      + right.
        exists (fun uvx =>
                  if is_None servers then Val (fresh_document uvx key)
                  else match servers with
                       | JObj s => Val (upserted_document d s uvx key)
                       | _ => Exc TypeError
                       end).
        intros w1. cbn. rewrite Hget. cbn.
        destruct (get_uvx_path h w1) as [[uvx|e|] w2];
          destruct servers; cbn; rewrite ?Hget; reflexivity.
      + right. exists (fun uvx => Val (fresh_document uvx key)). intros w1.
        cbn. rewrite Hget. cbn.
        by destruct (get_uvx_path h w1) as [[uvx|e|] w2]. }
  destruct Hcases as [[e He]|[f Hf]].
  - rewrite He. split; [apply only_runs_refl|]. intros w0. by rewrite He.
  - rewrite Hf. split; [exact Hruns|]. intros w0. by rewrite Hf, Hsame.
Qed.

(** A merge that completes either started afresh or upserted into the
    server mapping that was there. *)
Lemma merge_entry_inv (config doc : json) (key : string) (w : world) :
  (merge_entry h config key w).1 = Val doc ->
  exists uvx,
    (get_uvx_path h w).1 = Val uvx
    /\ ((starts_afresh config /\ doc = fresh_document uvx key)
        \/ exists d servers,
             config = JObj d /\ dict_get "mcpServers" d = Some (JObj servers)
             /\ doc = upserted_document d servers uvx key).
Proof.
  intros Hdoc.
  assert (Huvx : exists uvx, (get_uvx_path h w).1 = Val uvx).
  { revert Hdoc. unfold merge_entry. unfold_M.
    destruct config as [| | | | | |d]; cbn; try discriminate.
    - destruct (get_uvx_path h w) as [[uvx|e|] w2]; cbn; try discriminate. by eexists.
    - destruct (dict_get "mcpServers" d) as [servers|]; cbn;
        [destruct (is_None servers)|];
        destruct (get_uvx_path h w) as [[uvx|e|] w2]; cbn; try discriminate;
        by eexists. }
  destruct Huvx as [uvx Huvx]. exists uvx. split; [exact Huvx|].
  destruct config as [| | | | | |d]; try (by cbn in Hdoc).
  - left. split; [by left|].
    rewrite (merge_entry_fresh _ uvx) in Hdoc by (done || by left). by injection Hdoc.
  - destruct (dict_get "mcpServers" d) as [servers|] eqn:Hget.
    + destruct servers as [| | | | | |s].
      2-6: exfalso; revert Hdoc; unfold merge_entry; unfold_M; cbn;
           rewrite Hget; cbn;
           destruct (get_uvx_path h w) as [[u|e|] w2]; cbn; rewrite ?Hget; cbn;
           discriminate.
      * left. assert (starts_afresh (JObj d)) as Hf by (right; eauto).
        split; [exact Hf|]. rewrite (merge_entry_fresh _ uvx) in Hdoc by done.
        by injection Hdoc.
      * right. exists d, s. split; [reflexivity|]. split; [exact Hget|].
        rewrite (merge_entry_upsert _ _ _ _ _ Hget Huvx) in Hdoc. by injection Hdoc.
    + left. assert (starts_afresh (JObj d)) as Hf by (right; eauto).
      split; [exact Hf|]. rewrite (merge_entry_fresh _ uvx) in Hdoc by done.
      by injection Hdoc.
Qed.

(** Merging into the result of a merge gives that result again. *)
Lemma merge_entry_again (config doc : json) (key : string) (w w' : world) :
  (merge_entry h config key w).1 = Val doc ->
  (merge_entry h doc key w').1 = Val doc.
Proof.
  intros Hdoc. apply merge_entry_inv in Hdoc as (uvx & Huvx & Hform).
  assert (Huvx' : (get_uvx_path h w').1 = Val uvx)
    by (by rewrite (proj2 (get_uvx_path_frame w) w')).
  destruct Hform as [[_ ->]|(d & servers & _ & Hget & ->)].
  - unfold fresh_document.
    rewrite (merge_entry_upsert [("mcpServers", JObj [("Murf", server_entry uvx key)])]
               [("Murf", server_entry uvx key)] uvx key w' eq_refl Huvx').
    reflexivity.
  - unfold upserted_document.
    rewrite (merge_entry_upsert _ (dict_set "Murf" (server_entry uvx key) servers) _ _ _
               (dict_get_set_eq _ _ _) Huvx').
    cbn [fst]. unfold upserted_document. by rewrite !dict_set_set.
Qed.

(** The branch of [update_config_file] for a path that exists. *)
Lemma update_config_file_exists (fuel : nat) (p text key : string)
      (rest : list string) (w : world) :
  files w !! p = Some text ->
  stdin w = key :: rest ->
  update_config_file h (S fuel) p w
  = let w0 := with_stdin rest (log (Prompt api_key_prompt) w) in
    match json_load text with
    | None => (Exc JSONDecodeError, w0)
    | Some config =>
        match merge_entry h config key w0 with
        | (Val doc, w1) =>
            (Val tt, log (WriteFile p (json_dump doc))
                         (with_files (<[p := json_dump doc]> (files w1)) w1))
        | (Exc e, w1) => (Exc e, w1)
        | (OutOfFuel, w1) => (OutOfFuel, w1)
        end
    end.
Proof.
  intros Hfile Hin. cbn [update_config_file]. unfold input. unfold_M.
  rewrite Hfile, Hin. cbn [files with_stdin log]. rewrite Hfile.
  destruct (json_load text) as [config|]; [|reflexivity].
  by destruct (merge_entry h config key _) as [[doc|e|] w1].
Qed.

Lemma merge_entry_returns (config : json) (key : string) (w : world) :
  (merge_entry h config key w).1 <> OutOfFuel.
Proof.
assert (Huvx : (get_uvx_path h w).1 <> OutOfFuel).
  { unfold get_uvx_path, subprocess_run. unfold_M.
    destruct (_ || _); [|destruct (_ =? _)%string]; try done;
      match goal with |- context [subprocess h ?c] =>
        destruct (subprocess h c) as [[rc out]|]; cbn; [destruct (rc =? 0); cbn|]; done
      end. }
  unfold merge_entry. unfold_M.
  destruct config as [| | | | | |d]; cbn; try done.
  - destruct (get_uvx_path h w) as [[uvx|e|] w2]; cbn in *; done.
  - destruct (dict_get "mcpServers" d) as [servers|] eqn:Hget; cbn;
      [destruct (is_None servers) eqn:Hnone|];
      destruct (get_uvx_path h w) as [[uvx|e|] w2]; cbn in *; try done.
    rewrite Hget. cbn. by destruct servers.
Qed.

(** What a merge that completes leaves behind. *)
Lemma update_config_file_merges (fuel : nat) (p text key : string)
      (rest : list string) (config doc : json) (w : world) :
  files w !! p = Some text ->
  stdin w = key :: rest ->
  json_load text = Some config ->
  (merge_entry h config key w).1 = Val doc ->
  exists w',
    update_config_file h (S fuel) p w = (Val tt, w')
    /\ files w' = <[p := json_dump doc]> (files w)
    /\ stdin w' = rest
    /\ reg_PATH w' = reg_PATH w
    /\ count_events is_WriteFile w' = S (count_events is_WriteFile w)
    /\ count_events (is_Prompt path_prompt) w' = count_events (is_Prompt path_prompt) w.
Proof.
  intros Hfile Hin Hload Hdoc.
  rewrite (update_config_file_exists _ _ _ _ _ _ Hfile Hin), Hload. cbv zeta.
  set (w0 := with_stdin rest (log (Prompt api_key_prompt) w)).
  destruct (merge_entry_frame config key w0) as [Hruns Hsame].
  rewrite (Hsame w) in Hdoc.
  destruct (merge_entry h config key w0) as [o w1]. cbn in Hdoc, Hruns. subst o.
  eexists. split; [reflexivity|].
  pose proof (only_runs_count is_WriteFile _ _ (fun _ => eq_refl) Hruns) as Hwf.
  pose proof (only_runs_count (is_Prompt path_prompt) _ _ (fun _ => eq_refl) Hruns) as Hpr.
  destruct Hruns as (Hf & Hs & Hr & _).
  unfold count_events, w0 in *. cbn in Hf, Hs, Hr, Hwf, Hpr |- *.
  rewrite Hf, Hs, Hr, Hwf, Hpr. done.
Qed.

(** On a path that exists the merger never asks for a path and never
    runs out of fuel. *)
Lemma update_config_file_exists_props (fuel : nat) (p text : string) (w : world) :
  files w !! p = Some text ->
  let r := update_config_file h (S fuel) p w in
  r.1 <> OutOfFuel
  /\ count_events (is_Prompt path_prompt) r.2 = count_events (is_Prompt path_prompt) w.
Proof.
  intros Hfile r. subst r. destruct (stdin w) as [|key rest] eqn:Hin.
  - cbn [update_config_file]. unfold input. unfold_M. rewrite Hfile, Hin.
    cbn [fst snd]. split; [done | by rewrite count_events_log].
  - rewrite (update_config_file_exists _ _ _ _ _ _ Hfile Hin). cbv zeta.
    set (w0 := with_stdin rest (log (Prompt api_key_prompt) w)).
    assert (Hw0 : count_events (is_Prompt path_prompt) w0
                  = count_events (is_Prompt path_prompt) w)
      by reflexivity.
    destruct (json_load text) as [config|]; [|split; [done | exact Hw0]].
    pose proof (merge_entry_returns config key w0) as Hret.
    destruct (merge_entry_frame config key w0) as [Hruns _].
    pose proof (only_runs_count (is_Prompt path_prompt) _ _ (fun _ => eq_refl) Hruns) as Hpr.
    destruct (merge_entry h config key w0) as [[doc|e|] w1]; cbn [fst snd] in *;
      [|by rewrite Hpr|done].
    split; [done|]. rewrite <- Hw0, <- Hpr. reflexivity.
Qed.

(** C2 (as amended). For an existing config file on which the merge
    completes, a second run with the same inputs (same host, same API key)
    completes too and leaves every file byte for byte as the first run
    left it, provided the text written loads back as the document written
    (as Python's json does); the managed entry is the freshly built one.
    When the document already maps "mcpServers" to an object, every entry
    under another server name and every other top-level key is present and
    unchanged, in the same order. *)
Theorem config_merge_idempotent_nondestructive
    (fuel : nat) (p text key : string) (rest : list string)
    (config doc1 : json) (w : world) :
  files w !! p = Some text ->
  json_load text = Some config ->
  stdin w = key :: key :: rest ->
  (merge_entry h config key w).1 = Val doc1 ->
  json_load (json_dump doc1) = Some doc1 ->
  let run := update_config_file h (S fuel) p in
  let w1 := (run w).2 in
  let w2 := (run w1).2 in
  ((run w).1 = Val tt /\ files w1 = <[p := json_dump doc1]> (files w))
  /\ ((run w1).1 = Val tt /\ files w2 = files w1)
  /\ (exists uvx d1 servers1,
        doc1 = JObj d1 /\ dict_get "mcpServers" d1 = Some (JObj servers1)
        /\ dict_get "Murf" servers1 = Some (server_entry uvx key))
  /\ (forall d servers,
        config = JObj d -> dict_get "mcpServers" d = Some (JObj servers) ->
        exists d1 servers1,
          doc1 = JObj d1 /\ dict_get "mcpServers" d1 = Some (JObj servers1)
          /\ (forall name, name <> "Murf" -> dict_get name servers1 = dict_get name servers)
          /\ others "Murf" servers1 = others "Murf" servers
          /\ (forall k, k <> "mcpServers" -> dict_get k d1 = dict_get k d)
          /\ others "mcpServers" d1 = others "mcpServers" d
          /\ dict_keys d1 = dict_keys d).
Proof.
  intros Hfile Hload Hin Hdoc Hround run w1 w2. subst w2 w1 run.
  destruct (update_config_file_merges fuel _ _ _ _ _ _ _ Hfile Hin Hload Hdoc)
    as (wa & -> & Hfa & Hsa & _).
  cbn [fst snd].
  assert (Hfile1 : files wa !! p = Some (json_dump doc1))
    by (rewrite Hfa; apply lookup_insert_eq).
  pose proof (merge_entry_again _ _ _ w wa Hdoc) as Hdoc'.
  destruct (update_config_file_merges fuel _ _ _ _ _ _ _ Hfile1 Hsa Hround Hdoc')
    as (wb & -> & Hfb & _).
  cbn [fst snd].
  split; [by split|]. split; [split; [done|]; by rewrite Hfb, Hfa, insert_insert_eq|].
  apply merge_entry_inv in Hdoc as (uvx & Huvx & Hform). split.
  - exists uvx. destruct Hform as [[_ ->]|(d & servers & _ & Hget & ->)].
    + by exists [("mcpServers", JObj [("Murf", server_entry uvx key)])],
                [("Murf", server_entry uvx key)].
    + eexists _, _. split; [reflexivity|]. by rewrite !dict_get_set_eq.
  - intros d servers -> Hget.
    destruct Hform as [[Hfresh ->]|(d' & servers' & [= <-] & Hget' & ->)].
    + destruct Hfresh as [?|(d' & [= <-] & [Hn|Hn])]; congruence.
    + rewrite Hget in Hget'. injection Hget' as <-.
      eexists _, _. split; [reflexivity|]. split; [apply dict_get_set_eq|].
      split; [intros name Hne; by apply dict_get_set_ne|].
      split; [apply dict_set_others|].
      split; [intros k Hne; by apply dict_get_set_ne|].
      split; [apply dict_set_others|].
      by apply (dict_keys_set _ _ _ _ Hget).
Qed.

(** C3 (as amended). For an existing config file whose document is null,
    or an object with no "mcpServers" or a null one, the merge starts from
    a fresh document, completes, and writes the document that holds the
    server mapping with the managed entry and nothing else.  When the
    text is empty or not JSON the load raises, the merge does not
    complete, and no file is written. *)
Theorem config_merge_fresh_or_parse_error
    (fuel : nat) (p text key : string) (rest : list string)
    (uvx : json) (w : world) :
  files w !! p = Some text ->
  stdin w = key :: rest ->
  (get_uvx_path h w).1 = Val uvx ->
  let r := update_config_file h (S fuel) p w in
  (forall config,
      json_load text = Some config -> starts_afresh config ->
      r.1 = Val tt
      /\ files r.2 = <[p := json_dump (fresh_document uvx key)]> (files w))
  /\ (json_load text = None ->
      r.1 = Exc JSONDecodeError
      /\ files r.2 = files w
      /\ count_events is_WriteFile r.2 = count_events is_WriteFile w).
Proof.
  intros Hfile Hin Huvx r. subst r. split.
  - intros config Hload Hfresh.
    assert (Hdoc : (merge_entry h config key w).1 = Val (fresh_document uvx key))
      by (by rewrite (merge_entry_fresh _ uvx)).
    destruct (update_config_file_merges fuel _ _ _ _ _ _ _ Hfile Hin Hload Hdoc)
      as (w' & -> & Hf & _).
    by split.
  - intros Hload. rewrite (update_config_file_exists _ _ _ _ _ _ Hfile Hin), Hload.
    by repeat split.
Qed.

(** C9. Resolving the command never fails the merge once which (Linux,
    macOS) or where (Windows) can run: the lookup yields the stripped
    output on return code 0 and the literal "uvx" on any other return code
    (uvx not located), and on every document the merge accepts the run
    completes with that command in the managed entry. *)
Theorem uvx_not_found_defaults
    (fuel : nat) (p text key : string) (rest : list string)
    (config : json) (rc : Z) (out : string) (w : world) :
  (((platform_system h = "Linux" \/ platform_system h = "Darwin")
    /\ subprocess h ["which"; "uvx"] = Some (rc, out))
   \/ (platform_system h = "Windows"
       /\ subprocess h ["where"; "uvx"] = Some (rc, out))) ->
  let command := if rc =? 0 then JStr (PyStr.strip out) else JStr "uvx" in
  (get_uvx_path h w).1 = Val command
  /\ (rc <> 0 -> command = JStr "uvx")
  /\ (files w !! p = Some text ->
      stdin w = key :: rest ->
      json_load text = Some config ->
      (starts_afresh config
       \/ exists d servers,
            config = JObj d /\ dict_get "mcpServers" d = Some (JObj servers)) ->
      let r := update_config_file h (S fuel) p w in
      r.1 = Val tt
      /\ exists d1 servers1,
           files r.2 !! p = Some (json_dump (JObj d1))
           /\ dict_get "mcpServers" d1 = Some (JObj servers1)
           /\ dict_get "Murf" servers1 = Some (server_entry command key)).
Proof.
  intros Hhost command.
  assert (Huvx : (get_uvx_path h w).1 = Val command).
  { unfold get_uvx_path, subprocess_run, command. unfold_M.
    destruct Hhost as [[[Hos|Hos] Hsub]|[Hos Hsub]]; rewrite Hos; cbn;
      rewrite Hsub; by destruct (rc =? 0). }
  split; [exact Huvx|]. split.
  { intros Hrc. unfold command. apply Z.eqb_neq in Hrc. by rewrite Hrc. }
  clearbody command.
  intros Hfile Hin Hload Hok r. subst r.
  destruct Hok as [Hfresh|(d & servers & -> & Hget)].
  - assert (Hdoc : (merge_entry h config key w).1 = Val (fresh_document command key))
      by (by rewrite (merge_entry_fresh _ command)).
    destruct (update_config_file_merges fuel _ _ _ _ _ _ _ Hfile Hin Hload Hdoc)
      as (w' & -> & Hf & _).
    split; [done|]. eexists _, _. cbn [snd]. rewrite Hf, lookup_insert_eq.
    by split.
  - assert (Hdoc : (merge_entry h (JObj d) key w).1
                   = Val (upserted_document d servers command key))
      by (by rewrite (merge_entry_upsert _ _ _ _ _ Hget Huvx)).
    destruct (update_config_file_merges fuel _ _ _ _ _ _ _ Hfile Hin Hload Hdoc)
      as (w' & -> & Hf & _).
    split; [done|]. eexists _, _. cbn [snd]. rewrite Hf, lookup_insert_eq.
    split; [reflexivity|]. by rewrite !dict_get_set_eq.
Qed.

(** The branch of [update_config_file] for a path that does not exist. *)
Lemma update_config_file_missing (fuel : nat) (p : string) (w : world) :
  files w !! p = None ->
  update_config_file h (S fuel) p w
  = match stdin w with
    | [] => (Exc EOFError, log (Prompt path_prompt) w)
    | new_path :: rest =>
        let w0 := with_stdin rest (log (Prompt path_prompt) w) in
        match files w !! new_path with
        | Some _ => update_config_file h fuel new_path w0
        | None => (Exc FileNotFoundError, w0)
        end
    end.
Proof.
  intros Hmissing. cbn [update_config_file]. unfold input. unfold_M.
  rewrite Hmissing. destruct (stdin w) as [|new_path rest]; [reflexivity|].
  cbn [files with_stdin log]. by destruct (files w !! new_path).
Qed.

(** C6. For a config path that does not exist the corrected path is asked
    for exactly once and the call always ends (two units of fuel are
    enough for any input).  If the path typed exists, the merge runs
    there, and on a document the merge accepts it completes, writes that
    file and creates nothing at the missing path.  If the path typed does
    not exist either, [FileNotFoundError] is raised, which the platform
    branch turns into exit status 1, and no file is written or created. *)
Theorem missing_config_path_recovery (fuel : nat) (p : string) (w : world) :
  files w !! p = None ->
  let r := update_config_file h (S (S fuel)) p w in
  count_events (is_Prompt path_prompt) r.2
    = S (count_events (is_Prompt path_prompt) w)
  /\ r.1 <> OutOfFuel
  /\ (forall new_path rest,
        stdin w = new_path :: rest ->
        let w0 := with_stdin rest (log (Prompt path_prompt) w) in
        (forall text,
            files w !! new_path = Some text ->
            r = update_config_file h (S fuel) new_path w0
            /\ forall key rest' config doc,
                 rest = key :: rest' ->
                 json_load text = Some config ->
                 (merge_entry h config key w).1 = Val doc ->
                 r.1 = Val tt
                 /\ files r.2 = <[new_path := json_dump doc]> (files w)
                 /\ files r.2 !! p = None)
        /\ (files w !! new_path = None ->
            r = (Exc FileNotFoundError, w0)
            /\ files r.2 = files w
            /\ count_events is_WriteFile r.2 = count_events is_WriteFile w
            /\ exit_status (exit_on_error (update_config_file h (S (S fuel)) p) w).1
               = Some 1)).
Proof.
  intros Hmissing r.
  assert (Hstep : r = match stdin w with
                      | [] => (Exc EOFError, log (Prompt path_prompt) w)
                      | new_path :: rest =>
                          let w0 := with_stdin rest (log (Prompt path_prompt) w) in
                          match files w !! new_path with
                          | Some _ => update_config_file h (S fuel) new_path w0
                          | None => (Exc FileNotFoundError, w0)
                          end
                      end).
  { subst r. by apply update_config_file_missing. }
  destruct (stdin w) as [|new_path rest] eqn:Hin.
  { rewrite Hstep. cbn [fst snd]. rewrite count_events_log. cbn.
    split; [reflexivity|]. split; [done | intros ? ? [=]]. }
  cbv zeta in Hstep.
  set (w0 := with_stdin rest (log (Prompt path_prompt) w)) in *.
  assert (Hw0 : count_events (is_Prompt path_prompt) w0
                = S (count_events (is_Prompt path_prompt) w)) by reflexivity.
  destruct (files w !! new_path) as [text|] eqn:Hnew.
  - assert (Hnew0 : files w0 !! new_path = Some text) by exact Hnew.
    destruct (update_config_file_exists_props fuel _ _ _ Hnew0) as [Hret Hcount].
    rewrite Hstep. split; [by rewrite Hcount|]. split; [exact Hret|].
    intros new_path' rest' [= <- <-]. split; [|by rewrite Hnew].
    intros text' Htext. rewrite Hnew in Htext. injection Htext as <-.
    split; [reflexivity|].
    intros key rest'' config doc -> Hload Hdoc.
    rewrite <- (proj2 (merge_entry_frame config key w) w0) in Hdoc.
    destruct (update_config_file_merges fuel _ _ _ _ _ _ _ Hnew0 eq_refl Hload Hdoc)
      as (w' & -> & Hf & _).
    cbn [fst snd]. split; [done|]. split; [exact Hf|].
    rewrite Hf. rewrite lookup_insert_ne; [exact Hmissing|].
    intros ->. congruence.
  - rewrite Hstep. split; [exact Hw0|]. split; [done|].
    intros new_path' rest' [= <- <-]. split; [intros text; by rewrite Hnew|].
    intros _. repeat split.
    unfold exit_on_error, try_except. fold r. by rewrite Hstep.
Qed.

End Merger.

(** ** Download progress (reporthook) *)

Section Progress.

Lemma reporthook_known (block_num block_size total_size : Z) :
  0 < total_size ->
  (reporthook block_num block_size total_size
   == (block_num * block_size * 100) # (Z.to_pos total_size))%Q.
Proof.
  intros Hpos. unfold reporthook.
  rewrite (proj2 (Z.ltb_lt 0 total_size) Hpos).
  rewrite Qmake_Qdiv, Z2Pos.id by exact Hpos. reflexivity.
Qed.

Lemma reporthook_unknown (block_num block_size total_size : Z) :
  total_size <= 0 -> reporthook block_num block_size total_size = 0%Q.
Proof.
  intros Hle. unfold reporthook.
  by rewrite (proj2 (Z.ltb_ge 0 total_size) Hle).
Qed.

(** C8 (as amended). With a total size above 0 the percentage is
    [block_num * block_size * 100 / total_size]: it does not decrease when
    the block count grows, it is 0 at the first callback, at most 100
    while the blocks counted do not exceed the total and at least 100 once
    they cover it; nothing caps it at 100.  With a total size of 0 (or the
    -1 of an unknown size) nothing is divided and the percentage is 0. *)
Theorem reporthook_progress (block_size total_size : Z) :
  0 <= block_size ->
  (0 < total_size ->
     (forall b1 b2, b1 <= b2 ->
        (reporthook b1 block_size total_size <= reporthook b2 block_size total_size)%Q)
     /\ (reporthook 0 block_size total_size == 0)%Q
     /\ (forall b, b * block_size <= total_size ->
           (reporthook b block_size total_size <= 100)%Q)
     /\ (forall b, total_size <= b * block_size ->
           (100 <= reporthook b block_size total_size)%Q))
  /\ (total_size <= 0 -> forall b, reporthook b block_size total_size = 0%Q).
Proof.
  intros Hbs. split; [|intros Hle b; by apply reporthook_unknown].
  intros Hpos.
  assert (Hden : Z.pos (Z.to_pos total_size) = total_size) by (by apply Z2Pos.id).
  repeat split.
  - intros b1 b2 Hb. rewrite !reporthook_known by exact Hpos.
    unfold Qle. cbn [Qnum Qden]. rewrite Hden.
    assert (b1 * block_size <= b2 * block_size)
      by (by apply Z.mul_le_mono_nonneg_r).
    apply Z.mul_le_mono_nonneg_r; lia.
  - rewrite reporthook_known by exact Hpos. unfold Qeq. cbn [Qnum Qden]. lia.
  - intros b Hb. rewrite reporthook_known by exact Hpos.
    unfold Qle. cbn [Qnum Qden]. rewrite Hden. lia.
  - intros b Hb. rewrite reporthook_known by exact Hpos.
    unfold Qle. cbn [Qnum Qden]. rewrite Hden. lia.
Qed.

End Progress.

(** ** The platform branches (main, install_on_macOS, install_on_windows) *)

Section Platform.
Context {codec : JsonCodec} (h : host).

Lemma exit_on_error_raises (body : M unit) (e : exn) (w w' : world) :
  body w = (Exc e, w') ->
  is_Exception e = true ->
  exit_on_error body w = (Exc (SystemExit 1), w').
Proof.
  intros Hbody He. unfold exit_on_error, try_except, sys_exit, raise.
  rewrite Hbody, He. by destruct (is_FileNotFoundError e).
Qed.

(** Past the two except clauses only [SystemExit] is left. *)
Lemma exit_on_error_only_exits (body : M unit) (e : exn) (w : world) :
  (exit_on_error body w).1 = Exc e -> is_Exception e = false.
Proof.
  unfold exit_on_error, try_except, sys_exit, raise.
  destruct (body w) as [[[]|e'|] w']; cbn; try discriminate.
  destruct (is_Exception e') eqn:He'; [|by intros [= <-]].
  destruct (is_FileNotFoundError e'); by intros [= <-].
Qed.

(** What [ensure_python] can do: at most one subprocess call. *)
Lemma ensure_python_effect (w : world) :
  exists o w', ensure_python h w = (o, w') /\ only_runs w w'
               /\ (forall e, o = Exc e -> is_Exception e = true)
               /\ o <> OutOfFuel
               /\ (forall cmd, cmd <> ["uv"; "run"; "--python"; "pypy@3.11.11"; "--"; "python"; "--version"] ->
                     count_events (is_Run cmd) w' = count_events (is_Run cmd) w).
Proof.
  unfold ensure_python, subprocess_run. unfold_M.
  destruct (negb _).
  - destruct (subprocess h _) as [[rc out]|]; cbn [andb];
      eexists _, _; (split; [reflexivity|]); (split; [apply only_runs_log|]);
      (split; [intros e [= <-]; done || intros e [=]|]); (split; [done|]);
      intros cmd Hcmd; rewrite count_events_log; cbn [is_Run];
      by rewrite bool_decide_eq_false_2.
  - exists (Val tt), w. split; [reflexivity|]. split; [apply only_runs_refl|].
    by repeat split.
Qed.

(** A checked subprocess call returns code 0 or raises. *)
Lemma subprocess_run_checked (cmd : list string) (w : world) :
  (exists out, subprocess_run h cmd true w = (Val (0, out), log (Run cmd) w))
  \/ (exists e, subprocess_run h cmd true w = (Exc e, log (Run cmd) w)
                /\ is_Exception e = true).
Proof.
  unfold subprocess_run. destruct (subprocess h cmd) as [[rc out]|].
  - destruct (Z.eqb_spec rc 0) as [->|Hrc]; cbn; [left | right]; by eexists.
  - right. by eexists.
Qed.

Lemma subprocess_run_check_fails (cmd : list string) (rc : Z) (out : string) (w : world) :
  subprocess h cmd = Some (rc, out) ->
  rc <> 0 ->
  subprocess_run h cmd true w = (Exc CalledProcessError, log (Run cmd) w).
Proof.
  intros Hsub Hrc. unfold subprocess_run. rewrite Hsub.
  apply Z.eqb_neq in Hrc. by rewrite Hrc.
Qed.

(** C1 (the code departs from the claim). When which/where reports that
    ffmpeg is not there, the run does not go on to install it: the check
    itself raises, the process ends with status 1, brew is never asked to
    install ffmpeg, nothing is downloaded, and no file and no PATH value
    is changed. *)
Theorem ffmpeg_absent_aborts (fuel : nat) (w : world) (rc : Z) (out : string) :
  ((platform_system h = "Darwin" /\ subprocess h ["which"; "ffmpeg"] = Some (rc, out))
   \/ (platform_system h = "Windows" /\ subprocess h ["where"; "ffmpeg"] = Some (rc, out))) ->
  rc <> 0 ->
  let r := main h fuel w in
  exit_status r.1 = Some 1
  /\ count_events (is_Run brew_install) r.2 = count_events (is_Run brew_install) w
  /\ count_events is_Download r.2 = count_events is_Download w
  /\ files r.2 = files w
  /\ reg_PATH r.2 = reg_PATH w.
Proof.
  intros Hhost Hrc r. subst r.
  destruct (ensure_python_effect w) as (o & w1 & Hpy & Hruns & Hexc & Hfuel & Hcmd).
  assert (Hbrew : count_events (is_Run brew_install) w1
                  = count_events (is_Run brew_install) w)
    by (apply Hcmd; intros [=]).
  pose proof (only_runs_count is_Download _ _ (fun _ => eq_refl) Hruns) as Hdl.
  destruct Hruns as (Hf & _ & Hr & _).
  assert (Hexit : forall e w', is_Exception e = true ->
            (if is_Exception e
             then (if is_FileNotFoundError e then sys_exit 1 else sys_exit 1) w'
             else (Exc e, w')) = (Exc (SystemExit 1) : outcome unit, w')).
  { intros e w' ->. by destruct (is_FileNotFoundError e). }
  unfold main.
  destruct Hhost as [[Hos Hsub]|[Hos Hsub]]; rewrite Hos;
    cbn [String.eqb Ascii.eqb Bool.eqb].
  - unfold install_on_macOS, exit_on_error, try_except, bind. rewrite Hpy.
    destruct o as [[]|e|]; [|rewrite Hexit by (by apply Hexc); by cbn|done].
    destruct (subprocess_run_checked ["which"; "brew"] w1)
      as [[out' ->]|(e & -> & He)]; cbn [fst snd].
    + cbn [Z.eqb negb].
      rewrite (subprocess_run_check_fails _ _ _ _ Hsub Hrc).
      rewrite Hexit by done. cbn [fst snd exit_status files reg_PATH log].
      rewrite !count_events_log. cbn [is_Run is_Download].
      rewrite !bool_decide_eq_false_2 by (intros [=]). by rewrite Hbrew, Hdl, Hf, Hr.
    + rewrite Hexit by done. cbn [fst snd exit_status files reg_PATH log].
      rewrite !count_events_log. cbn [is_Run is_Download].
      rewrite !bool_decide_eq_false_2 by (intros [=]). by rewrite Hbrew, Hdl, Hf, Hr.
  - unfold install_on_windows, exit_on_error, try_except, bind. rewrite Hpy.
    destruct o as [[]|e|]; [|rewrite Hexit by (by apply Hexc); by cbn|done].
    rewrite (subprocess_run_check_fails _ _ _ _ Hsub Hrc).
    rewrite Hexit by done. cbn [fst snd exit_status files reg_PATH log].
    rewrite !count_events_log. cbn [is_Run is_Download].
    rewrite !bool_decide_eq_false_2 by (intros [=]). by rewrite Hbrew, Hdl, Hf, Hr.
Qed.

(** C4 (as amended). An operating system other than Linux, macOS and
    Windows ends the process with status 1, and so does every exception
    raised inside a platform branch: no run of [main] ends in a Python
    [Exception].  On Windows a failing registry access is such an
    exception; the registry module being unavailable is not: the installer
    returns normally after the download and the extraction, with the PATH
    variable and every file untouched. *)
Theorem fatal_conditions_exit_status (fuel : nat) (w : world) :
  (platform_system h <> "Linux" -> platform_system h <> "Darwin" ->
   platform_system h <> "Windows" ->
     main h fuel w = (Exc (SystemExit 1), w))
  /\ (forall e, (main h fuel w).1 = Exc e -> is_Exception e = false)
  /\ (forall (body : M unit) e w',
        body w = (Exc e, w') -> is_Exception e = true ->
        exit_status (exit_on_error body w).1 = Some 1
        /\ (exit_on_error body w).2 = w')
  /\ (urlretrieve_error h = None -> extractall_error h = None ->
      extracted_dirs h <> [] ->
      (has_winreg h = false ->
         install_ffmpeg_on_windows h w = (Val tt, log Extract (log Download w)))
      /\ (has_winreg h = true -> forall e, openkey_error h = Some e ->
            install_ffmpeg_on_windows h w = (Exc e, log Extract (log Download w)))).
Proof.
  split; [|split; [|split]].
  - intros Hl Hd Hw. unfold main.
    apply String.eqb_neq in Hl, Hd, Hw. by rewrite Hl, Hd, Hw.
  - intros e. unfold main, install_on_macOS, install_on_windows.
    destruct (_ =? _)%string; [discriminate|].
    destruct (_ =? _)%string; [apply exit_on_error_only_exits|].
    destruct (_ =? _)%string; [apply exit_on_error_only_exits|].
    by intros [= <-].
  - intros body e w' Hbody He.
    by rewrite (exit_on_error_raises _ _ _ _ Hbody He).
  - intros Hurl Hzip Hdirs. unfold install_ffmpeg_on_windows.
    rewrite Hurl, Hzip. unfold_M.
    destruct (extracted_dirs h) as [|first_dir dirs]; [done|].
    split.
    + intros ->. reflexivity.
    + intros -> e He. cbn [is_ImportError]. unfold register_bin_path.
      rewrite He. reflexivity.
Qed.

End Platform.

(** ** The theorems at concrete inputs *)

Section Instances.
Import Scenario Cases.
#[local] Existing Instance RefCodec.codec.

Local Ltac compute_eq := vm_compute; reflexivity.

Lemma ffmpeg_absent_aborts_witness :
  (platform_system (mac 1 0) = "Darwin"
   /\ subprocess (mac 1 0) ["which"; "ffmpeg"] = Some (1, EmptyString))
  /\ 1 <> 0
  /\ exit_status (main (mac 1 0) 2 (config_world doc_with_servers ["KEY"])).1 = Some 1
  /\ count_events (is_Run brew_install)
       (main (mac 1 0) 2 (config_world doc_with_servers ["KEY"])).2 = 0%nat.
Proof.
  assert (H1 : platform_system (mac 1 0) = "Darwin"
               /\ subprocess (mac 1 0) ["which"; "ffmpeg"] = Some (1, EmptyString))
    by (split; reflexivity).
  assert (H2 : 1 <> 0) by discriminate.
  destruct (ffmpeg_absent_aborts (mac 1 0) 2 (config_world doc_with_servers ["KEY"])
              1 EmptyString (or_introl H1) H2) as (Hexit & Hbrew & _).
  exact (conj H1 (conj H2 (conj Hexit Hbrew))).
Defined.

Lemma config_merge_idempotent_witness :
  files (config_world doc_with_servers ["KEY"; "KEY"]) !! config_path
    = Some (json_dump doc_with_servers)
  /\ json_load (json_dump doc_with_servers) = Some doc_with_servers
  /\ (merge_entry (mac 0 0) doc_with_servers "KEY"
        (config_world doc_with_servers ["KEY"; "KEY"])).1 = Val merged_with_servers
  /\ json_load (json_dump merged_with_servers) = Some merged_with_servers
  /\ (update_config_file (mac 0 0) 1 config_path
        (config_world doc_with_servers ["KEY"; "KEY"])).1 = Val tt
  /\ files (update_config_file (mac 0 0) 1 config_path
              (update_config_file (mac 0 0) 1 config_path
                 (config_world doc_with_servers ["KEY"; "KEY"])).2).2
     = files (update_config_file (mac 0 0) 1 config_path
                (config_world doc_with_servers ["KEY"; "KEY"])).2.
Proof.
  assert (H1 : files (config_world doc_with_servers ["KEY"; "KEY"]) !! config_path
               = Some (json_dump doc_with_servers)) by compute_eq.
  assert (H2 : json_load (json_dump doc_with_servers) = Some doc_with_servers)
    by compute_eq.
  assert (H3 : (merge_entry (mac 0 0) doc_with_servers "KEY"
                  (config_world doc_with_servers ["KEY"; "KEY"])).1
               = Val merged_with_servers) by compute_eq.
  assert (H4 : json_load (json_dump merged_with_servers) = Some merged_with_servers)
    by compute_eq.
  destruct (config_merge_idempotent_nondestructive (mac 0 0) 0 config_path
              (json_dump doc_with_servers) "KEY" [] doc_with_servers
              merged_with_servers (config_world doc_with_servers ["KEY"; "KEY"])
              H1 H2 eq_refl H3 H4) as ((Hrun & _) & (_ & Hsame) & _).
  exact (conj H1 (conj H2 (conj H3 (conj H4 (conj Hrun Hsame))))).
Defined.

Lemma config_merge_fresh_witness :
  files (config_world doc_without_servers ["KEY"]) !! config_path
    = Some (json_dump doc_without_servers)
  /\ (get_uvx_path (mac 0 0) (config_world doc_without_servers ["KEY"])).1 = Val uvx_found
  /\ json_load (json_dump doc_without_servers) = Some doc_without_servers
  /\ starts_afresh doc_without_servers
  /\ files (update_config_file (mac 0 0) 1 config_path
              (config_world doc_without_servers ["KEY"])).2
     = <[config_path := json_dump (fresh_document uvx_found "KEY")]>
         (files (config_world doc_without_servers ["KEY"])).
Proof.
  assert (H1 : files (config_world doc_without_servers ["KEY"]) !! config_path
               = Some (json_dump doc_without_servers)) by compute_eq.
  assert (H2 : (get_uvx_path (mac 0 0) (config_world doc_without_servers ["KEY"])).1
               = Val uvx_found) by compute_eq.
  assert (H3 : json_load (json_dump doc_without_servers) = Some doc_without_servers)
    by compute_eq.
  assert (H4 : starts_afresh doc_without_servers).
  { right. eexists. split; [reflexivity|]. left. reflexivity. }
  destruct (config_merge_fresh_or_parse_error (mac 0 0) 0 config_path
              (json_dump doc_without_servers) "KEY" [] uvx_found
              (config_world doc_without_servers ["KEY"]) H1 eq_refl H2) as [Hfresh _].
  destruct (Hfresh doc_without_servers H3 H4) as [_ Hfiles].
  exact (conj H1 (conj H2 (conj H3 (conj H4 Hfiles)))).
Defined.

Lemma missing_config_path_recovery_witness :
  files (moved_config_world [typed_path; "KEY"]) !! config_path = None
  /\ count_events (is_Prompt path_prompt)
       (update_config_file (mac 0 0) 2 config_path
          (moved_config_world [typed_path; "KEY"])).2 = 1%nat
  /\ (update_config_file (mac 0 0) 2 config_path
        (moved_config_world [typed_path; "KEY"])).1 = Val tt
  /\ files (update_config_file (mac 0 0) 2 config_path
              (moved_config_world [typed_path; "KEY"])).2 !! config_path = None.
Proof.
  assert (H1 : files (moved_config_world [typed_path; "KEY"]) !! config_path = None)
    by compute_eq.
  destruct (missing_config_path_recovery (mac 0 0) 0 config_path
              (moved_config_world [typed_path; "KEY"]) H1) as (Hcount & _ & Hrec).
  destruct (Hrec typed_path ["KEY"] eq_refl) as [Hthere _].
  assert (H2 : files (moved_config_world [typed_path; "KEY"]) !! typed_path
               = Some (json_dump doc_with_servers)) by compute_eq.
  assert (H3 : json_load (json_dump doc_with_servers) = Some doc_with_servers)
    by compute_eq.
  assert (H4 : (merge_entry (mac 0 0) doc_with_servers "KEY"
                  (moved_config_world [typed_path; "KEY"])).1
               = Val merged_with_servers) by compute_eq.
  destruct (Hthere (json_dump doc_with_servers) H2) as [_ Hmerge].
  destruct (Hmerge "KEY" [] doc_with_servers merged_with_servers eq_refl H3 H4)
    as (Hval & _ & Hnone).
  exact (conj H1 (conj Hcount (conj Hval Hnone))).
Defined.

Lemma uvx_not_found_defaults_witness :
  (platform_system (mac 0 1) = "Darwin"
   /\ subprocess (mac 0 1) ["which"; "uvx"] = Some (1, EmptyString))
  /\ 1 <> 0
  /\ (get_uvx_path (mac 0 1) (config_world doc_with_servers ["KEY"])).1 = Val (JStr "uvx")
  /\ (update_config_file (mac 0 1) 1 config_path
        (config_world doc_with_servers ["KEY"])).1 = Val tt.
Proof.
  assert (H1 : platform_system (mac 0 1) = "Darwin"
               /\ subprocess (mac 0 1) ["which"; "uvx"] = Some (1, EmptyString))
    by (split; reflexivity).
  assert (H2 : 1 <> 0) by discriminate.
  destruct (uvx_not_found_defaults (mac 0 1) 0 config_path (json_dump doc_with_servers)
              "KEY" [] doc_with_servers 1 EmptyString
              (config_world doc_with_servers ["KEY"])
              (or_introl (conj (or_intror (proj1 H1)) (proj2 H1)))) as (Huvx & _ & Hrun).
  assert (H3 : files (config_world doc_with_servers ["KEY"]) !! config_path
               = Some (json_dump doc_with_servers)) by compute_eq.
  assert (H4 : json_load (json_dump doc_with_servers) = Some doc_with_servers)
    by compute_eq.
  assert (H5 : exists d servers,
             doc_with_servers = JObj d
             /\ dict_get "mcpServers" d = Some (JObj servers))
    by (eexists _, _; split; reflexivity).
  destruct (Hrun H3 eq_refl H4 (or_intror H5)) as [Hval _].
  exact (conj H1 (conj H2 (conj Huvx Hval))).
Defined.

Lemma shell_profile_block_once_witness :
  PyStr.contains marker (default EmptyString (files unpatched !! profile)) = false
  /\ (repeat_run 3 (update_shell_config ffmpeg_bin profile) unpatched).1 = Val tt
  /\ count_events is_WriteFile
       (repeat_run 3 (update_shell_config ffmpeg_bin profile) unpatched).2 = 1%nat
  /\ files (repeat_run 3 (update_shell_config ffmpeg_bin profile) unpatched).2 !! profile
     = Some ("# mine" +:+ marker_block ffmpeg_bin).
Proof.
  assert (H1 : PyStr.contains marker (default EmptyString (files unpatched !! profile))
               = false) by compute_eq.
  destruct (shell_profile_block_once ffmpeg_bin profile unpatched 2) as [_ Habsent].
  destruct (Habsent H1) as [Hrun _].
  split; [exact H1|]. rewrite Hrun. repeat split; compute_eq.
Defined.

Lemma persistent_path_update_witness :
  extracted_dirs (windows true) = ["C:\ffmpeg\ffmpeg-7.1-essentials_build"]
  /\ has_winreg (windows true) = true
  /\ openkey_error (windows true) = None
  /\ (ffmpeg_bin ∉ PyStr.split ";" (default EmptyString (reg_PATH unpatched)))
  /\ reg_PATH (install_ffmpeg_on_windows (windows true) unpatched).2
     = Some ("C:\Windows;" +:+ ffmpeg_bin)
  /\ count_events is_SetPath (install_ffmpeg_on_windows (windows true) unpatched).2
     = 1%nat.
Proof.
  assert (H1 : openkey_error (windows true) = None) by reflexivity.
  assert (H2 : ffmpeg_bin ∉ PyStr.split ";" (default EmptyString (reg_PATH unpatched)))
    by (refine (proj1 (bool_decide_eq_false
                         (ffmpeg_bin ∈ PyStr.split ";" (default EmptyString (reg_PATH unpatched)))) _);
        compute_eq).
  destruct (persistent_path_update (windows true) _ _ unpatched
              eq_refl eq_refl eq_refl eq_refl H1) as (_ & _ & Habsent).
  destruct (Habsent H2) as (Hreg & Hcount & _).
  exact (conj eq_refl (conj eq_refl (conj H1 (conj H2 (conj Hreg Hcount))))).
Defined.

Lemma profile_patched_only_with_path_write_witness :
  extracted_dirs (windows true) = ["C:\ffmpeg\ffmpeg-7.1-essentials_build"]
  /\ (path_join (windows true) "C:\ffmpeg\ffmpeg-7.1-essentials_build" "bin"
       ∈ PyStr.split ";" (default EmptyString (reg_PATH path_only)))
  /\ PyStr.contains marker (default EmptyString (files path_only !! profile)) = false
  /\ files (install_ffmpeg_on_windows (windows true) path_only).2 = files path_only.
Proof.
  assert (H1 : extracted_dirs (windows true) = ["C:\ffmpeg\ffmpeg-7.1-essentials_build"])
    by reflexivity.
  assert (H2 : path_join (windows true) "C:\ffmpeg\ffmpeg-7.1-essentials_build" "bin"
                 ∈ PyStr.split ";" (default EmptyString (reg_PATH path_only)))
    by (refine (proj1 (bool_decide_eq_true
                         (path_join (windows true) "C:\ffmpeg\ffmpeg-7.1-essentials_build" "bin"
                            ∈ PyStr.split ";" (default EmptyString (reg_PATH path_only)))) _);
        compute_eq).
  assert (H3 : PyStr.contains marker (default EmptyString (files path_only !! profile))
               = false) by compute_eq.
  destruct (profile_patched_only_with_path_write (windows true) path_only) as [_ Hpresent].
  destruct (Hpresent _ _ H1 H2) as [Hfiles _].
  exact (conj H1 (conj H2 (conj H3 Hfiles))).
Defined.

Lemma reporthook_progress_witness :
  0 <= 8192
  /\ 0 < 10000
  /\ 10000 <= 2 * 8192
  /\ (100 <= reporthook 2 8192 10000)%Q.
Proof.
  assert (H1 : 0 <= 8192) by discriminate.
  assert (H2 : 0 < 10000) by reflexivity.
  assert (H3 : 10000 <= 2 * 8192) by discriminate.
  destruct (reporthook_progress 8192 10000 H1) as [Hknown _].
  destruct (Hknown H2) as (_ & _ & _ & Hdone).
  exact (conj H1 (conj H2 (conj H3 (Hdone 2 H3)))).
Defined.

Lemma fatal_conditions_exit_status_witness :
  urlretrieve_error (windows false) = None
  /\ extractall_error (windows false) = None
  /\ extracted_dirs (windows false) <> []
  /\ has_winreg (windows false) = false
  /\ install_ffmpeg_on_windows (windows false) unpatched
     = (Val tt, log Extract (log Download unpatched)).
Proof.
  assert (H3 : extracted_dirs (windows false) <> []) by discriminate.
  destruct (fatal_conditions_exit_status (windows false) 2 unpatched) as (_ & _ & _ & Hwin).
  destruct (Hwin eq_refl eq_refl H3) as [Hmissing _].
  exact (conj eq_refl (conj eq_refl (conj H3 (conj eq_refl (Hmissing eq_refl))))).
Defined.

(** Against C2 as stated: a config file that has a top-level key but no
    server mapping loses that key in the merge. *)
Lemma merge_drops_top_level_keys :
  json_load (json_dump doc_without_servers) = Some doc_without_servers
  /\ (update_config_file (mac 0 0) 1 config_path
        (config_world doc_without_servers ["KEY"])).1 = Val tt
  /\ exists d0 d1,
       doc_without_servers = JObj d0
       /\ (files (update_config_file (mac 0 0) 1 config_path
                    (config_world doc_without_servers ["KEY"])).2 !! config_path)
            ≫= json_load = Some (JObj d1)
       /\ dict_get "theme" d0 = Some (JStr "dark")
       /\ dict_get "theme" d1 = None.
Proof.
  split; [compute_eq|]. split; [compute_eq|].
  eexists _, [("mcpServers", JObj [("Murf", server_entry uvx_found "KEY")])].
  split; [reflexivity|]. split; [compute_eq|]. split; reflexivity.
Qed.

(** Against C3 as stated: on an empty document the merge does not
    complete, and with a null server mapping the other top-level key is
    not kept. *)
Lemma merge_fails_on_empty_and_forgets_keys :
  json_load EmptyString = None
  /\ update_config_file (mac 0 0) 1 config_path (world_with config_path EmptyString ["KEY"])
     = (Exc JSONDecodeError,
        with_stdin [] (log (Prompt api_key_prompt)
                         (world_with config_path EmptyString ["KEY"])))
  /\ exit_status (main (mac 0 0) 1 (world_with config_path EmptyString ["KEY"])).1 = Some 1
  /\ json_load (json_dump doc_null_servers) = Some doc_null_servers
  /\ (files (update_config_file (mac 0 0) 1 config_path
               (config_world doc_null_servers ["KEY"])).2 !! config_path)
       ≫= json_load
     = Some (JObj [("mcpServers", JObj [("Murf", server_entry uvx_found "KEY")])]).
Proof. repeat split; compute_eq. Qed.

(** Against C4 as stated: without the registry module the Windows
    installer returns normally, and the run that follows it ends with
    status 0, the PATH variable never written. *)
Lemma winreg_missing_is_not_fatal :
  has_winreg (windows false) = false
  /\ (install_ffmpeg_on_windows (windows false)
        (world_with appdata_config "{}" ["KEY"])).1 = Val tt
  /\ exit_status (install_then_merge (windows false)
                    (world_with appdata_config "{}" ["KEY"])).1 = Some 0
  /\ count_events is_SetPath
       (install_then_merge (windows false) (world_with appdata_config "{}" ["KEY"])).2
     = 0%nat.
Proof. repeat split; compute_eq. Qed.

(** Against C8 as stated: a download of 10000 bytes is read in two blocks
    of 8192, and the last callback reports 163.84 percent. *)
Lemma reporthook_exceeds_100 :
  (reporthook 1 8192 10000 < 100)%Q
  /\ (reporthook 2 8192 10000 == 16384 # 100)%Q
  /\ (100 < reporthook 2 8192 10000)%Q.
Proof. repeat split. Qed.

(** On Linux the script prints that it is not supported and ends with
    status 0. *)
Example main_linux_exit_status :
  main linux 2 (config_world doc_with_servers ["KEY"])
  = (Val tt, config_world doc_with_servers ["KEY"])
  /\ exit_status (main linux 2 (config_world doc_with_servers ["KEY"])).1 = Some 0.
Proof. split; reflexivity. Qed.

(** On Windows too the missing ffmpeg ends the run before the installer. *)
Example main_windows_ffmpeg_absent :
  main (windows true) 2 (world_with appdata_config "{}" ["KEY"])
  = (Exc (SystemExit 1), log (Run ["where"; "ffmpeg"]) (world_with appdata_config "{}" ["KEY"])).
Proof. compute_eq. Qed.

(** The Windows installer on its own does what the claim of C1 expects. *)
Example installer_appends_path :
  reg_PATH (install_ffmpeg_on_windows (windows true) unpatched).2
  = Some ("C:\Windows;" +:+ ffmpeg_bin).
Proof. compute_eq. Qed.

End Instances.

(** * Further properties of the script *)

(** ** Effects of the building blocks *)

Lemma step_ok_refl (allowed : event -> bool) (w : world) : step_ok allowed w w.
Proof. split; [reflexivity|]. by exists []. Qed.

Lemma step_ok_trans (allowed : event -> bool) (w1 w2 w3 : world) :
  step_ok allowed w1 w2 -> step_ok allowed w2 w3 -> step_ok allowed w1 w3.
Proof.
  intros (Hr1 & evs1 & Ht1 & Ha1) (Hr2 & evs2 & Ht2 & Ha2).
  split; [congruence|]. exists (evs2 ++ evs1).
  split; [by rewrite Ht2, Ht1, app_assoc|].
  by rewrite forallb_app, Ha1, Ha2.
Qed.

Lemma step_ok_log (allowed : event -> bool) (e : event) (w : world) :
  allowed e = true -> step_ok allowed w (log e w).
Proof. intros He. split; [reflexivity|]. exists [e]. cbn. by rewrite He. Qed.

(** Changing the files or the console input is no event. *)
Lemma step_ok_same_trace (allowed : event -> bool) (w w' w'' : world) :
  trace w'' = trace w' -> reg_PATH w'' = reg_PATH w' ->
  step_ok allowed w w' -> step_ok allowed w w''.
Proof.
  intros Ht Hr (Hr' & evs & Ht' & Ha). split; [congruence|].
  exists evs. split; [congruence | exact Ha].
Qed.

Lemma step_ok_count (allowed p : event -> bool) (w w' : world) :
  (forall e, allowed e = true -> p e = false) ->
  step_ok allowed w w' -> count_events p w' = count_events p w.
Proof.
  intros Hp (_ & evs & Ht & Ha). unfold count_events. rewrite Ht. clear Ht.
  induction evs as [|e evs IH]; [reflexivity|].
  cbn in Ha. apply andb_true_iff in Ha as [He Ha]. cbn.
  rewrite (Hp e He). by apply IH.
Qed.

Section Effects.
Context {codec : JsonCodec} (h : host).

(** A subprocess call changes nothing but the trace, and what it raises is
    an [Exception]. *)
Lemma subprocess_run_effect (cmd : list string) (check : bool) (w : world) :
  let r := subprocess_run h cmd check w in
  r.2 = log (Run cmd) w
  /\ (forall e, r.1 = Exc e -> is_Exception e = true)
  /\ r.1 <> OutOfFuel.
Proof.
  unfold subprocess_run. destruct (subprocess h cmd) as [[rc out]|]; cbn.
  - destruct (check && negb (rc =? 0)); cbn; split; try done;
      split; try done; by intros e [= <-].
  - split; [done|]. split; [by intros e [= <-] | done].
Qed.

(** The lookup of uvx runs which or where, or nothing, and raises nothing
    but [FileNotFoundError]. *)
Lemma get_uvx_path_effect (w : world) :
  let r := get_uvx_path h w in
  step_ok harmless w r.2
  /\ (forall e, r.1 = Exc e -> e = FileNotFoundError)
  /\ r.1 <> OutOfFuel.
Proof.
  unfold get_uvx_path, subprocess_run. unfold_M.
  destruct (_ || _); [|destruct (_ =? _)%string];
    try (cbn; split; [apply step_ok_refl|]; split; [by intros e|done]);
    match goal with |- context [subprocess h ?c] =>
      destruct (subprocess h c) as [[rc out]|]; cbn;
        [destruct (rc =? 0); cbn|];
        (split; [by apply step_ok_log|]); (split; [by intros e [= <-] || by intros e|done])
    end.
Qed.

(** How [merge_entry] depends on the world: not at all when the guard
    raises, and through the lookup of uvx otherwise. *)
Lemma merge_entry_cases (config : json) (key : string) :
  (exists e, is_Exception e = true
             /\ forall w, merge_entry h config key w = (Exc e, w))
  \/ (exists f : json -> outcome json,
        (forall uvx e, f uvx = Exc e -> is_Exception e = true)
        /\ (forall uvx, f uvx <> OutOfFuel)
        /\ forall w,
             merge_entry h config key w
             = (match (get_uvx_path h w).1 with
                | Val uvx => f uvx
                | Exc e => Exc e
                | OutOfFuel => OutOfFuel
                end, (get_uvx_path h w).2)).
Proof.
  unfold merge_entry. unfold_M.
  destruct config as [| | | | | |d];
    try (left; exists AttributeError; split; [reflexivity|]; intros w; cbn; reflexivity).
  - right. exists (fun uvx => Val (fresh_document uvx key)).
    split; [by intros|]. split; [by intros|]. intros w. cbn.
    by destruct (get_uvx_path h w) as [[uvx|e|] w2].
  - destruct (dict_get "mcpServers" d) as [servers|] eqn:Hget.
    + right.
      exists (fun uvx =>
                if is_None servers then Val (fresh_document uvx key)
                else match servers with
                     | JObj s => Val (upserted_document d s uvx key)
                     | _ => Exc TypeError
                     end).
      split; [intros uvx e; destruct servers; cbn; by intros [= <-]|].
      split; [intros uvx; by destruct servers|].
      intros w. cbn. rewrite Hget. cbn.
      destruct (get_uvx_path h w) as [[uvx|e|] w2];
        destruct servers; cbn; rewrite ?Hget; reflexivity.
    + right. exists (fun uvx => Val (fresh_document uvx key)).
      split; [by intros|]. split; [by intros|]. intros w.
      cbn. rewrite Hget. cbn.
      by destruct (get_uvx_path h w) as [[uvx|e|] w2].
Qed.

Lemma merge_entry_effect (config : json) (key : string) (w : world) :
  let r := merge_entry h config key w in
  step_ok harmless w r.2
  /\ files r.2 = files w
  /\ stdin r.2 = stdin w
  /\ (forall e, r.1 = Exc e -> is_Exception e = true)
  /\ r.1 <> OutOfFuel.
Proof.
  destruct (get_uvx_path_effect w) as (Hstep & Hexc & Hfuel).
  destruct (get_uvx_path_frame h w) as [(Hf & Hs & _) _].
  destruct (merge_entry_cases config key) as [(e & He & Hm)|(f & Hfe & Hff & Hm)];
    rewrite Hm; cbn [fst snd].
  - split; [apply step_ok_refl|]. repeat split; try done. by intros e' [= <-].
  - split; [exact Hstep|]. split; [exact Hf|]. split; [exact Hs|].
    destruct (get_uvx_path h w) as [[uvx|e|] w2]; cbn [fst snd] in *.
    + split; [apply Hfe | apply Hff].
    + split; [|done]. intros e' [= <-]. by rewrite (Hexc e eq_refl).
    + done.
Qed.

(** On a path that exists the fuel plays no part. *)
Lemma update_config_file_exists_fuel (fuel : nat) (p text : string) (w : world) :
  files w !! p = Some text ->
  update_config_file h (S fuel) p w = update_config_file h 1 p w.
Proof.
  intros Hfile. destruct (stdin w) as [|key rest] eqn:Hin.
  - cbn [update_config_file]. unfold input. unfold_M. by rewrite Hfile, Hin.
  - by rewrite !(update_config_file_exists h _ _ _ _ _ _ Hfile Hin).
Qed.

(** What one call on an existing path does. *)
Lemma update_config_file_exists_effect (fuel : nat) (p text : string) (w : world) :
  files w !! p = Some text ->
  let r := update_config_file h (S fuel) p w in
  step_ok harmless w r.2
  /\ (forall e, r.1 = Exc e -> is_Exception e = true)
  /\ r.1 <> OutOfFuel
  /\ ((r.1 = Val tt
       /\ (exists doc, files r.2 = <[p := json_dump doc]> (files w))
       /\ count_events is_WriteFile r.2 = S (count_events is_WriteFile w))
      \/ (r.1 <> Val tt /\ files r.2 = files w
          /\ count_events is_WriteFile r.2 = count_events is_WriteFile w)).
Proof.
  intros Hfile r. subst r. destruct (stdin w) as [|key rest] eqn:Hin.
  { cbn [update_config_file]. unfold input. unfold_M. rewrite Hfile, Hin. cbn [fst snd].
    split; [by apply step_ok_log|]. split; [by intros e [= <-]|]. split; [done|].
    right. by rewrite count_events_log. }
  rewrite (update_config_file_exists h _ _ _ _ _ _ Hfile Hin). cbv zeta.
  set (w0 := with_stdin rest (log (Prompt api_key_prompt) w)).
  assert (Hw0 : step_ok harmless w w0).
  { apply (step_ok_same_trace _ _ (log (Prompt api_key_prompt) w)); try reflexivity.
    by apply step_ok_log. }
  assert (Hc0 : count_events is_WriteFile w0 = count_events is_WriteFile w) by reflexivity.
  destruct (json_load text) as [config|]; cbn [fst snd].
  2: { split; [exact Hw0|]. split; [by intros e [= <-]|]. split; [done|]. by right. }
  destruct (merge_entry_effect config key w0) as (Hstep & Hf & _ & Hexc & Hfuel).
  pose proof (only_runs_count is_WriteFile _ _ (fun _ => eq_refl)
                (proj1 (merge_entry_frame h config key w0))) as Hcount.
  destruct (merge_entry h config key w0) as [[doc|e|] w1]; cbn [fst snd] in *.
  - split.
    { apply (step_ok_trans _ _ w0); [exact Hw0|].
      apply (step_ok_trans _ _ w1); [exact Hstep|].
      apply (step_ok_same_trace _ _ (log (WriteFile p (json_dump doc)) w1));
        try reflexivity. by apply step_ok_log. }
    split; [by intros e|]. split; [done|]. left. split; [done|].
    split; [exists doc; by rewrite Hf|].
    rewrite count_events_log. cbn [is_WriteFile].
    change (count_events is_WriteFile (with_files ?f w1)) with (count_events is_WriteFile w1).
    by rewrite Hcount.
  - split; [by apply (step_ok_trans _ _ w0)|].
    split; [intros e' [= <-]; by apply Hexc|]. split; [done|].
    right. split; [done|]. split; [by rewrite Hf|]. by rewrite Hcount.
  - done.
Qed.

(** On an existing path exactly one prompt is shown, the one for the key,
    and at most one line is read. *)
Lemma update_config_file_exists_prompts (fuel : nat) (p text : string) (w : world) :
  files w !! p = Some text ->
  let r := update_config_file h (S fuel) p w in
  count_events is_any_Prompt r.2 = S (count_events is_any_Prompt w)
  /\ stdin r.2 = tail (stdin w).
Proof.
  intros Hfile r. subst r. destruct (stdin w) as [|key rest] eqn:Hin.
  { cbn [update_config_file]. unfold input. unfold_M. rewrite Hfile, Hin.
    cbn [fst snd stdin log tail]. rewrite count_events_log. by rewrite ?Hin. }
  rewrite (update_config_file_exists h _ _ _ _ _ _ Hfile Hin). cbv zeta.
  set (w0 := with_stdin rest (log (Prompt api_key_prompt) w)).
  assert (Hc0 : count_events is_any_Prompt w0 = S (count_events is_any_Prompt w))
    by reflexivity.
  destruct (json_load text) as [config|]; cbn [fst snd]; [|done].
  destruct (merge_entry_frame h config key w0) as [Hruns _].
  pose proof (only_runs_count is_any_Prompt _ _ (fun _ => eq_refl) Hruns) as Hcount.
  destruct Hruns as (_ & Hs & _).
  destruct (merge_entry h config key w0) as [[doc|e|] w1]; cbn [fst snd tail] in *;
    rewrite ?count_events_log; cbn [is_any_Prompt stdin log with_files];
    try change (count_events is_any_Prompt (with_files ?f w1))
          with (count_events is_any_Prompt w1);
    by rewrite ?Hcount, ?Hs, ?Hc0.
Qed.

(** What one call does, whatever the path and the fuel. *)
Lemma update_config_file_effect (fuel : nat) (p : string) (w : world) :
  let r := update_config_file h fuel p w in
  step_ok harmless w r.2
  /\ (forall e, r.1 = Exc e -> is_Exception e = true)
  /\ ((r.1 = Val tt
       /\ (exists q old text,
             files w !! q = Some old /\ files r.2 = <[q := text]> (files w))
       /\ count_events is_WriteFile r.2 = S (count_events is_WriteFile w))
      \/ (r.1 <> Val tt /\ files r.2 = files w
          /\ count_events is_WriteFile r.2 = count_events is_WriteFile w)).
Proof.
  intros r. subst r.
  assert (Hnone : forall (o : outcome unit) w', o <> Val tt ->
            (forall e, o = Exc e -> is_Exception e = true) ->
            step_ok harmless w w' -> files w' = files w ->
            count_events is_WriteFile w' = count_events is_WriteFile w ->
            step_ok harmless w (o, w').2
            /\ (forall e, (o, w').1 = Exc e -> is_Exception e = true)
            /\ (((o, w').1 = Val tt
                 /\ (exists q old text,
                       files w !! q = Some old /\ files (o, w').2 = <[q := text]> (files w))
                 /\ count_events is_WriteFile (o, w').2 = S (count_events is_WriteFile w))
                \/ ((o, w').1 <> Val tt /\ files (o, w').2 = files w
                    /\ count_events is_WriteFile (o, w').2 = count_events is_WriteFile w))).
  { intros o w' Ho He Hs Hf Hc. cbn [fst snd]. split; [exact Hs|]. split; [exact He|].
    by right. }
  assert (Hexists : forall f q text w0,
            step_ok harmless w w0 -> files w0 = files w ->
            count_events is_WriteFile w0 = count_events is_WriteFile w ->
            files w0 !! q = Some text ->
            let r := update_config_file h (S f) q w0 in
            step_ok harmless w r.2
            /\ (forall e, r.1 = Exc e -> is_Exception e = true)
            /\ ((r.1 = Val tt
                 /\ (exists q old text,
                       files w !! q = Some old /\ files r.2 = <[q := text]> (files w))
                 /\ count_events is_WriteFile r.2 = S (count_events is_WriteFile w))
                \/ (r.1 <> Val tt /\ files r.2 = files w
                    /\ count_events is_WriteFile r.2 = count_events is_WriteFile w))).
  { intros f q text w0 Hs Hf Hc Hq r.
    destruct (update_config_file_exists_effect f q text w0 Hq)
      as (Hstep & Hexc & _ & Hcases).
    fold r in Hstep, Hexc, Hcases.
    split; [by apply (step_ok_trans _ _ w0)|]. split; [exact Hexc|].
    destruct Hcases as [(Hv & [doc Hdoc] & Hcount)|(Hv & Hfiles & Hcount)].
    - left. split; [exact Hv|]. split; [|by rewrite Hcount, Hc].
      exists q, text, (json_dump doc). rewrite <- Hf. by split.
    - right. split; [exact Hv|]. split; [congruence | congruence]. }
  destruct fuel as [|fuel].
  { apply Hnone; try done. apply step_ok_refl. }
  destruct (files w !! p) as [text|] eqn:Hfile.
  { apply (Hexists fuel p text w); try done. apply step_ok_refl. }
  rewrite (update_config_file_missing h _ _ _ Hfile).
  destruct (stdin w) as [|new_path rest].
  { apply Hnone; try done;
      first [by intros e [= <-] | by apply step_ok_log | by rewrite count_events_log]. }
  cbv zeta. set (w0 := with_stdin rest (log (Prompt path_prompt) w)).
  assert (Hw0 : step_ok harmless w w0).
  { apply (step_ok_same_trace _ _ (log (Prompt path_prompt) w)); try reflexivity.
    by apply step_ok_log. }
  destruct (files w !! new_path) as [text|] eqn:Hnew.
  - destruct fuel as [|fuel].
    + apply Hnone; try done.
    + by apply (Hexists fuel new_path text w0).
  - apply Hnone; try done. by intros e [= <-].
Qed.

Lemma update_config_file_returns (fuel : nat) (p : string) (w : world) :
  (update_config_file h (S (S fuel)) p w).1 <> OutOfFuel.
Proof.
  destruct (files w !! p) as [text|] eqn:Hfile.
  - by destruct (update_config_file_exists_effect (S fuel) p text w Hfile) as (_ & _ & ? & _).
  - rewrite (update_config_file_missing h _ _ _ Hfile).
    destruct (stdin w) as [|new_path rest]; [done|]. cbv zeta.
    destruct (files w !! new_path) as [text|] eqn:Hnew; [|done].
    by destruct (update_config_file_exists_effect fuel new_path text
                   (with_stdin rest (log (Prompt path_prompt) w)) Hnew)
      as (_ & _ & ? & _).
Qed.

(** X1. The recursion of [update_config_file] is at most one call deep:
    with two units of fuel or more the result is the same as with two, it is
    never out of fuel, what it raises is an ordinary exception (never
    [SystemExit]), it shows at most two prompts and reads at most two
    lines. *)
Theorem update_config_file_bounded (fuel : nat) (p : string) (w : world) :
  let r := update_config_file h 2 p w in
  update_config_file h (S (S fuel)) p w = r
  /\ r.1 <> OutOfFuel
  /\ (forall e, r.1 = Exc e -> is_Exception e = true)
  /\ (count_events is_any_Prompt r.2 <= 2 + count_events is_any_Prompt w)%nat
  /\ (length (stdin w) <= 2 + length (stdin r.2))%nat.
Proof.
  intros r.
  assert (Hlen : forall l : list string, (length l <= 1 + length (tail l))%nat)
    by (intros [|? ?]; cbn; lia).
  split; [|split; [|split]].
  - subst r. destruct (files w !! p) as [text|] eqn:Hfile.
    + by rewrite (update_config_file_exists_fuel (S fuel) _ _ _ Hfile),
                 (update_config_file_exists_fuel 1 _ _ _ Hfile).
    + rewrite (update_config_file_missing h (S fuel) _ _ Hfile),
              (update_config_file_missing h 1 _ _ Hfile).
      destruct (stdin w) as [|new_path rest]; [reflexivity|]. cbv zeta.
      destruct (files w !! new_path) as [text|] eqn:Hnew; [|reflexivity].
      by apply (update_config_file_exists_fuel _ _ text).
  - subst r. destruct (files w !! p) as [text|] eqn:Hfile.
    + by destruct (update_config_file_exists_effect 1 p text w Hfile) as (_ & _ & ? & _).
    + rewrite (update_config_file_missing h _ _ _ Hfile).
      destruct (stdin w) as [|new_path rest]; [done|]. cbv zeta.
      destruct (files w !! new_path) as [text|] eqn:Hnew; [|done].
      by destruct (update_config_file_exists_effect 0 new_path text
                     (with_stdin rest (log (Prompt path_prompt) w)) Hnew)
        as (_ & _ & ? & _).
  - by destruct (update_config_file_effect 2 p w) as (_ & ? & _).
  - subst r. destruct (files w !! p) as [text|] eqn:Hfile.
    + destruct (update_config_file_exists_prompts 1 p text w Hfile) as [-> ->].
      split; [lia|]. specialize (Hlen (stdin w)). lia.
    + rewrite (update_config_file_missing h _ _ _ Hfile).
      destruct (stdin w) as [|new_path rest]; cbn [fst snd].
      { rewrite count_events_log. cbn. lia. }
      cbv zeta. set (w0 := with_stdin rest (log (Prompt path_prompt) w)).
      assert (Hc0 : count_events is_any_Prompt w0 = S (count_events is_any_Prompt w))
        by reflexivity.
      destruct (files w !! new_path) as [text|] eqn:Hnew; cbn [fst snd].
      * destruct (update_config_file_exists_prompts 0 new_path text w0 Hnew) as [-> ->].
        rewrite Hc0. split; [lia|]. cbn [stdin w0 with_stdin length].
        specialize (Hlen rest). lia.
      * rewrite Hc0. cbn. lia.
Qed.

(** X2. The merger writes all or nothing, and never creates a file: a call
    that returns normally has written exactly one file, one that was there
    before, and nothing else; a call that ends any other way has written
    nothing and left every file as it was.  Either way the set of existing
    paths and the PATH variable are unchanged. *)
Theorem update_config_file_all_or_nothing (fuel : nat) (p : string) (w : world) :
  let r := update_config_file h fuel p w in
  ((r.1 = Val tt
    /\ (exists q old text,
          files w !! q = Some old /\ files r.2 = <[q := text]> (files w))
    /\ count_events is_WriteFile r.2 = S (count_events is_WriteFile w))
   \/ (r.1 <> Val tt /\ files r.2 = files w
       /\ count_events is_WriteFile r.2 = count_events is_WriteFile w))
  /\ dom (files r.2) = dom (files w)
  /\ reg_PATH r.2 = reg_PATH w.
Proof.
  intros r. destruct (update_config_file_effect fuel p w) as ([Hreg _] & _ & Hcases).
  fold r in Hreg, Hcases. split; [exact Hcases|]. split; [|exact Hreg].
  destruct Hcases as [(_ & (q & old & text & Hq & ->) & _)|(_ & -> & _)]; [|reflexivity].
  apply dom_insert_lookup_L. by eexists.
Qed.

(** X3. Documents the merge cannot take: when the top level of the document
    is neither an object nor null the merge raises [AttributeError], and
    when "mcpServers" is there but is neither an object nor null it raises
    [TypeError] (once the lookup of uvx has returned); in both cases the
    key has been asked for and no file is changed. *)
Theorem update_config_file_rejects_malformed
    (fuel : nat) (p text key : string) (rest : list string)
    (config : json) (w : world) :
  files w !! p = Some text ->
  stdin w = key :: rest ->
  json_load text = Some config ->
  let r := update_config_file h (S fuel) p w in
  (not_dict_nor_None config = true ->
     r.1 = Exc AttributeError /\ files r.2 = files w /\ stdin r.2 = rest)
  /\ (forall d servers uvx,
        config = JObj d ->
        dict_get "mcpServers" d = Some servers ->
        not_dict_nor_None servers = true ->
        (get_uvx_path h w).1 = Val uvx ->
        r.1 = Exc TypeError /\ files r.2 = files w /\ stdin r.2 = rest).
Proof.
  intros Hfile Hin Hload r. subst r.
  rewrite (update_config_file_exists h _ _ _ _ _ _ Hfile Hin), Hload. cbv zeta.
  set (w0 := with_stdin rest (log (Prompt api_key_prompt) w)).
  split.
  - intros Hbad.
    assert (Hm : merge_entry h config key w0 = (Exc AttributeError, w0))
      by (by destruct config).
    by rewrite Hm.
  - intros d servers uvx -> Hget Hbad Huvx.
    rewrite <- (proj2 (get_uvx_path_frame h w) w0) in Huvx.
    destruct (get_uvx_path_frame h w0) as [(Hf & Hs & _) _].
    assert (Hm : merge_entry h (JObj d) key w0 = (Exc TypeError, (get_uvx_path h w0).2)).
    { unfold merge_entry. unfold_M. cbn. rewrite Hget. cbn.
      destruct (get_uvx_path h w0) as [o w1]. cbn in Huvx. subst o.
      destruct servers; try discriminate; cbn; by rewrite Hget. }
    rewrite Hm. cbn [fst snd]. by rewrite Hf, Hs.
Qed.

Lemma dict_set_absent (k : string) (v : json) (d : dict) :
  dict_get k d = None -> dict_set k v d = d ++ [(k, v)].
Proof.
  induction d as [|[k' v'] d IH]; simpl; [reflexivity|].
  destruct (String.eqb k' k); [discriminate|]. intros Hget. by rewrite IH.
Qed.

Lemma dict_get_None_keys (k : string) (d : dict) :
  dict_get k d = None -> k ∉ dict_keys d.
Proof.
  induction d as [|[k' v'] d IH]; simpl; [intros _; apply not_elem_of_nil|].
  destruct (String.eqb_spec k' k) as [->|Hne]; [discriminate|].
  intros Hget. apply not_elem_of_cons. split; [congruence | by apply IH].
Qed.

Lemma dict_get_Some_keys (k : string) (v : json) (d : dict) :
  dict_get k d = Some v -> (1 <= PyStr.count k (dict_keys d))%nat.
Proof.
  unfold PyStr.count. induction d as [|[k' v'] d IH]; simpl; [discriminate|].
  destruct (String.eqb_spec k' k) as [->|Hne].
  - intros _. rewrite String.eqb_refl. simpl. lia.
  - intros Hget. specialize (IH Hget).
    destruct (String.eqb k k'); simpl; lia.
Qed.

(** X4. The managed entry is replaced, not merged, and stays unique: with a
    server mapping in the document, the merge puts the freshly built entry
    under "Murf" whatever was there; an entry that was there keeps its
    place and the mapping its keys and length, one that was not is added at
    the end; a mapping with at most one "Murf" ends with exactly one, and
    one without repeated names stays so. *)
Theorem merge_entry_replaces_in_place
    (d servers : dict) (uvx : json) (key : string) (w : world) :
  dict_get "mcpServers" d = Some (JObj servers) ->
  (get_uvx_path h w).1 = Val uvx ->
  exists d1 servers1,
    (merge_entry h (JObj d) key w).1 = Val (JObj d1)
    /\ dict_get "mcpServers" d1 = Some (JObj servers1)
    /\ dict_get "Murf" servers1 = Some (server_entry uvx key)
    /\ (forall old, dict_get "Murf" servers = Some old ->
          dict_keys servers1 = dict_keys servers /\ length servers1 = length servers)
    /\ (dict_get "Murf" servers = None ->
          servers1 = servers ++ [("Murf", server_entry uvx key)])
    /\ ((PyStr.count "Murf" (dict_keys servers) <= 1)%nat ->
          PyStr.count "Murf" (dict_keys servers1) = 1%nat)
    /\ (NoDup (dict_keys servers) -> NoDup (dict_keys servers1)).
Proof.
  intros Hget Huvx.
  exists (dict_set "mcpServers" (JObj (dict_set "Murf" (server_entry uvx key) servers)) d),
         (dict_set "Murf" (server_entry uvx key) servers).
  split; [by rewrite (merge_entry_upsert h _ _ _ _ _ Hget Huvx)|].
  split; [apply dict_get_set_eq|]. split; [apply dict_get_set_eq|].
  set (entry := server_entry uvx key).
  assert (Hkeys : forall old, dict_get "Murf" servers = Some old ->
                    dict_keys (dict_set "Murf" entry servers) = dict_keys servers)
    by (intros old Hold; by apply (dict_keys_set _ _ old)).
  split; [|split; [|split]].
  - intros old Hold. split; [by apply (Hkeys old)|].
    pose proof (Hkeys old Hold) as Hk. unfold dict_keys in Hk.
    apply (f_equal length) in Hk. by rewrite !length_map in Hk.
  - apply dict_set_absent.
  - intros Hcount. destruct (dict_get "Murf" servers) as [old|] eqn:Hold.
    + rewrite (Hkeys old eq_refl).
      pose proof (dict_get_Some_keys _ _ _ Hold). lia.
    + rewrite (dict_set_absent _ _ _ Hold).
      replace (dict_keys (servers ++ [("Murf", entry)]))
        with (dict_keys servers ++ ["Murf"]) by (unfold dict_keys; by rewrite map_app).
      rewrite count_app, (count_0 _ _ (dict_get_None_keys _ _ Hold)). reflexivity.
  - intros Hnodup. destruct (dict_get "Murf" servers) as [old|] eqn:Hold.
    + by rewrite (Hkeys old eq_refl).
    + rewrite (dict_set_absent _ _ _ Hold).
      replace (dict_keys (servers ++ [("Murf", entry)]))
        with (dict_keys servers ++ ["Murf"]) by (unfold dict_keys; by rewrite map_app).
      apply NoDup_app. split; [exact Hnodup|]. split; [|apply NoDup_singleton].
      intros name Hname Hin. apply list_elem_of_singleton in Hin. cbn in Hin. subst name.
      by apply (dict_get_None_keys _ _ Hold).
Qed.

End Effects.

(** ** Whole runs *)

Section Runs.
Context {codec : JsonCodec} (h : host).

Lemma well_behaved_bind {A B} (c : M A) (k : A -> M B) (w : world) :
  well_behaved w (c w) ->
  (forall a w1, c w = (Val a, w1) -> well_behaved w1 (k a w1)) ->
  well_behaved w (bind c k w).
Proof.
  intros (Hs & Hd & Hf & He) Hk. unfold bind.
  destruct (c w) as [[a|e|] w1] eqn:Hc; cbn [fst snd] in *.
  - destruct (Hk a w1 eq_refl) as (Hs' & Hd' & Hf' & He').
    split; [by apply (step_ok_trans _ _ w1)|]. split; [congruence|]. by split.
  - split; [exact Hs|]. split; [exact Hd|]. split; [done|].
    intros e' [= <-]. by apply He.
  - done.
Qed.

Lemma well_behaved_ret {A} (a : A) (w : world) : well_behaved w (ret a w).
Proof. split; [apply step_ok_refl|]. by repeat split. Qed.

Lemma well_behaved_raise {A} (e : exn) (w : world) :
  is_Exception e = true -> well_behaved w (raise (A := A) e w).
Proof.
  intros He. split; [apply step_ok_refl|]. split; [done|]. split; [done|].
  by intros e' [= <-].
Qed.

Lemma well_behaved_subprocess_run (cmd : list string) (check : bool) (w : world) :
  cmd <> brew_install -> well_behaved w (subprocess_run h cmd check w).
Proof.
  intros Hcmd. destruct (subprocess_run_effect h cmd check w) as (Hw & He & Hf).
  split; [|split; [by rewrite Hw|by split]].
  rewrite Hw. apply step_ok_log. cbn. by rewrite bool_decide_eq_false_2.
Qed.

Lemma well_behaved_update_config_file (fuel : nat) (p : string) (w : world) :
  well_behaved w (update_config_file h (S (S fuel)) p w).
Proof.
  destruct (update_config_file_effect h (S (S fuel)) p w) as (Hs & He & Hcases).
  split; [exact Hs|]. split; [|split; [apply update_config_file_returns | exact He]].
  destruct Hcases as [(_ & (q & old & text & Hq & ->) & _)|(_ & -> & _)]; [|reflexivity].
  apply dom_insert_lookup_L. by eexists.
Qed.

(** A checked call that returns has return code 0. *)
Lemma subprocess_run_checked_value (cmd : list string) (r : Z * string) (w w1 : world) :
  subprocess_run h cmd true w = (Val r, w1) -> fst r = 0.
Proof.
  unfold subprocess_run. destruct (subprocess h cmd) as [[rc out]|]; [|discriminate].
  destruct (Z.eqb_spec rc 0) as [->|Hrc]; cbn; [by intros [= <- _] | discriminate].
Qed.

Lemma well_behaved_ensure_python (w : world) : well_behaved w (ensure_python h w).
Proof.
  unfold ensure_python. destruct (negb _); [|apply well_behaved_ret].
  apply well_behaved_bind; [by apply well_behaved_subprocess_run|].
  intros. apply well_behaved_ret.
Qed.

(** What the two except clauses make of a body that behaved. *)
Lemma well_behaved_exit_on_error (body : M unit) (w : world) :
  well_behaved w (body w) ->
  let r := exit_on_error body w in
  step_ok harmless w r.2
  /\ dom (files r.2) = dom (files w)
  /\ (r.1 = Val tt \/ r.1 = Exc (SystemExit 1)).
Proof.
  intros (Hs & Hd & Hf & He). unfold exit_on_error, try_except, sys_exit, raise.
  destruct (body w) as [[[]|e|] w1]; cbn [fst snd] in *.
  - split; [exact Hs|]. split; [exact Hd|]. by left.
  - rewrite (He e eq_refl). destruct (is_FileNotFoundError e); cbn [fst snd];
      (split; [exact Hs|]); (split; [exact Hd|]); by right.
  - done.
Qed.

Lemma main_effect (fuel : nat) (w : world) :
  let r := main h (S (S fuel)) w in
  step_ok harmless w r.2
  /\ dom (files r.2) = dom (files w)
  /\ (r.1 = Val tt \/ r.1 = Exc (SystemExit 1)).
Proof.
  unfold main.
  destruct (_ =? _)%string.
  { cbn. split; [apply step_ok_refl|]. split; [done|]. by left. }
  destruct (_ =? _)%string.
  { unfold install_on_macOS. apply well_behaved_exit_on_error.
    apply well_behaved_bind; [apply well_behaved_ensure_python|]. intros _ w1 _.
    apply well_behaved_bind; [by apply well_behaved_subprocess_run|].
    intros result w2 Hbrew. rewrite (subprocess_run_checked_value _ _ _ _ Hbrew).
    cbn [Z.eqb negb].
    apply well_behaved_bind; [by apply well_behaved_subprocess_run|].
    intros result' w3 Hffmpeg. rewrite (subprocess_run_checked_value _ _ _ _ Hffmpeg).
    cbn [Z.eqb].
    apply well_behaved_bind; [apply well_behaved_ret|]. intros _ w4 _.
    apply well_behaved_update_config_file. }
  destruct (_ =? _)%string.
  { unfold install_on_windows. apply well_behaved_exit_on_error.
    apply well_behaved_bind; [apply well_behaved_ensure_python|]. intros _ w1 _.
    apply well_behaved_bind; [by apply well_behaved_subprocess_run|].
    intros result w2 Hffmpeg. rewrite (subprocess_run_checked_value _ _ _ _ Hffmpeg).
    cbn [Z.eqb].
    apply well_behaved_bind; [apply well_behaved_ret|]. intros _ w3 _.
    apply well_behaved_bind.
    - destruct (environ_APPDATA h); [apply well_behaved_ret | by apply well_behaved_raise].
    - intros configFilePath w4 _. apply well_behaved_update_config_file. }
  cbn. split; [apply step_ok_refl|]. split; [done|]. by right.
Qed.

(** X5. No run of [main] reaches an installation step: whatever the host,
    the console input and the files, [brew install ffmpeg] is never run,
    nothing is downloaded or extracted, the PATH variable is never written,
    and no file is created or removed. *)
Theorem main_never_installs (fuel : nat) (w : world) :
  let r := main h (S (S fuel)) w in
  reg_PATH r.2 = reg_PATH w
  /\ count_events (is_Run brew_install) r.2 = count_events (is_Run brew_install) w
  /\ count_events is_Download r.2 = count_events is_Download w
  /\ count_events is_Extract r.2 = count_events is_Extract w
  /\ count_events is_SetPath r.2 = count_events is_SetPath w
  /\ dom (files r.2) = dom (files w).
Proof.
  intros r. destruct (main_effect fuel w) as (Hstep & Hdom & _). fold r in Hstep, Hdom.
  assert (Hcount : forall p, (forall e, harmless e = true -> p e = false) ->
                     count_events p r.2 = count_events p w)
    by (intros p Hp; by apply (step_ok_count harmless)).
  split; [exact (proj1 Hstep)|].
  split; [apply Hcount; intros [| | | | |] He; try done; cbn in *;
          by destruct (bool_decide _)|].
  repeat split; try exact Hdom; apply Hcount; by intros [| | | | |].
Qed.

(** X6. Every run of [main] ends with exit status 0 or 1: a normal return,
    or the [sys.exit(1)] of an except clause or of the unsupported-OS
    branch; no other exception leaves the program. *)
Theorem main_exit_status (fuel : nat) (w : world) :
  let r := main h (S (S fuel)) w in
  (r.1 = Val tt /\ exit_status r.1 = Some 0)
  \/ (r.1 = Exc (SystemExit 1) /\ exit_status r.1 = Some 1).
Proof.
  intros r. destruct (main_effect fuel w) as (_ & _ & [Hr|Hr]); fold r in Hr;
    [left | right]; by rewrite Hr.
Qed.

(** [ensure_python] returns normally when the version is the expected one
    or uv can be started, whatever uv's return code. *)
Lemma ensure_python_returns (w : world) :
  (python_version h = "3.11.11" \/ exists rc out, subprocess h uv_run = Some (rc, out)) ->
  exists w1, ensure_python h w = (Val tt, w1) /\ only_runs w w1.
Proof.
  intros Hpy. unfold ensure_python.
  destruct (String.eqb_spec (python_version h) "3.11.11") as [Hv|Hv]; cbn [negb].
  - exists w. split; [reflexivity | apply only_runs_refl].
  - destruct Hpy as [Hpy|(rc & out & Huv)]; [congruence|].
    exists (log (Run uv_run) w). split; [|apply only_runs_log].
    unfold subprocess_run. unfold_M. fold uv_run. by rewrite Huv.
Qed.

Lemma only_runs_trans (w1 w2 w3 : world) :
  only_runs w1 w2 -> only_runs w2 w3 -> only_runs w1 w3.
Proof.
  intros (Hf1 & Hs1 & Hr1 & c1 & Ht1) (Hf2 & Hs2 & Hr2 & c2 & Ht2).
  split; [congruence|]. split; [congruence|]. split; [congruence|].
  exists (c2 ++ c1). by rewrite Ht2, Ht1, map_app, app_assoc.
Qed.

(** With Homebrew and ffmpeg found, the macOS branch is the merge at the
    default path. *)
Lemma install_on_macOS_ready (fuel : nat) (out1 out2 : string) (w : world) :
  (python_version h = "3.11.11" \/ exists rc out, subprocess h uv_run = Some (rc, out)) ->
  subprocess h ["which"; "brew"] = Some (0, out1) ->
  subprocess h ["which"; "ffmpeg"] = Some (0, out2) ->
  exists w3,
    only_runs w w3
    /\ install_on_macOS h fuel w
       = exit_on_error (update_config_file h fuel (macos_config_path h)) w3.
Proof.
  intros Hpy Hbrew Hffmpeg. destruct (ensure_python_returns w Hpy) as (w1 & Hw1 & Hruns).
  exists (log (Run ["which"; "ffmpeg"]) (log (Run ["which"; "brew"]) w1)).
  split.
  { apply (only_runs_trans _ w1); [exact Hruns|].
    apply (only_runs_trans _ (log (Run ["which"; "brew"]) w1)); apply only_runs_log. }
  unfold install_on_macOS, exit_on_error, try_except, bind. rewrite Hw1.
  unfold subprocess_run. rewrite Hbrew. cbn. rewrite Hffmpeg. reflexivity.
Qed.

(** With ffmpeg found, the Windows branch is the merge at the path under
    APPDATA. *)
Lemma install_on_windows_ready (fuel : nat) (out : string) (w : world) :
  (python_version h = "3.11.11" \/ exists rc out, subprocess h uv_run = Some (rc, out)) ->
  subprocess h ["where"; "ffmpeg"] = Some (0, out) ->
  exists w2,
    only_runs w w2
    /\ install_on_windows h fuel w
       = exit_on_error
           (match environ_APPDATA h with
            | Some appdata => update_config_file h fuel (windows_config_path h appdata)
            | None => raise TypeError
            end) w2.
Proof.
  intros Hpy Hffmpeg. destruct (ensure_python_returns w Hpy) as (w1 & Hw1 & Hruns).
  exists (log (Run ["where"; "ffmpeg"]) w1).
  split; [apply (only_runs_trans _ w1); [exact Hruns | apply only_runs_log]|].
  unfold install_on_windows, exit_on_error, try_except, bind. rewrite Hw1.
  unfold subprocess_run. rewrite Hffmpeg. cbn.
  by destruct (environ_APPDATA h).
Qed.

Lemma exit_on_error_merge (fuel : nat) (p text key : string) (rest : list string)
      (config doc : json) (w w3 : world) :
  only_runs w w3 ->
  files w !! p = Some text ->
  stdin w = key :: rest ->
  json_load text = Some config ->
  (merge_entry h config key w).1 = Val doc ->
  let r := exit_on_error (update_config_file h (S fuel) p) w3 in
  r.1 = Val tt
  /\ files r.2 = <[p := json_dump doc]> (files w)
  /\ stdin r.2 = rest
  /\ reg_PATH r.2 = reg_PATH w.
Proof.
  intros (Hf & Hs & Hr & _) Hfile Hin Hload Hdoc r. subst r.
  rewrite <- Hf in Hfile. rewrite <- Hs in Hin.
  rewrite <- (proj2 (merge_entry_frame h config key w) w3) in Hdoc.
  destruct (update_config_file_merges h fuel _ _ _ _ _ _ _ Hfile Hin Hload Hdoc)
    as (w' & Hrun & Hfiles & Hstdin & Hreg & _).
  unfold exit_on_error, try_except. rewrite Hrun. cbn [fst snd].
  by rewrite Hfiles, Hstdin, Hreg, Hf, Hr.
Qed.

(** X7. On macOS a missing Homebrew ends the run with status 1 before
    anything else is looked at: when [which brew] cannot be started or
    returns a non-zero code, ffmpeg is not checked, nothing is asked on the
    console, no line is read and no file is changed. *)
Theorem macos_without_brew_aborts (fuel : nat) (w : world) :
  platform_system h = "Darwin" ->
  (subprocess h ["which"; "brew"] = None
   \/ exists rc out, subprocess h ["which"; "brew"] = Some (rc, out) /\ rc <> 0) ->
  let r := main h fuel w in
  r.1 = Exc (SystemExit 1)
  /\ files r.2 = files w
  /\ stdin r.2 = stdin w
  /\ count_events is_any_Prompt r.2 = count_events is_any_Prompt w
  /\ count_events (is_Run ["which"; "ffmpeg"]) r.2
     = count_events (is_Run ["which"; "ffmpeg"]) w.
Proof.
  intros Hos Hbrew r. subst r. unfold main. rewrite Hos. cbn [String.eqb Ascii.eqb Bool.eqb].
  destruct (ensure_python_effect h w) as (o & w1 & Hpy & Hruns & Hexc & Hfuel & Hcmd).
  assert (Hff : count_events (is_Run ["which"; "ffmpeg"]) w1
                = count_events (is_Run ["which"; "ffmpeg"]) w)
    by (apply Hcmd; intros [=]).
  pose proof (only_runs_count is_any_Prompt _ _ (fun _ => eq_refl) Hruns) as Hpr.
  destruct Hruns as (Hf & Hs & _).
  assert (Hexit : forall e w', is_Exception e = true ->
            (if is_Exception e
             then (if is_FileNotFoundError e then sys_exit 1 else sys_exit 1) w'
             else (Exc e, w')) = (Exc (SystemExit 1) : outcome unit, w')).
  { intros e w' ->. by destruct (is_FileNotFoundError e). }
  unfold install_on_macOS, exit_on_error, try_except, bind. rewrite Hpy.
  destruct o as [[]|e|]; [|rewrite Hexit by (by apply Hexc); by cbn|done].
  assert (Hrun : exists e, is_Exception e = true
            /\ subprocess_run h ["which"; "brew"] true w1
               = (Exc e, log (Run ["which"; "brew"]) w1)).
  { unfold subprocess_run. destruct Hbrew as [->|(rc & out & -> & Hrc)].
    - by exists FileNotFoundError.
    - exists CalledProcessError. apply Z.eqb_neq in Hrc. by rewrite Hrc. }
  destruct Hrun as (e & He & ->). rewrite Hexit by exact He.
  cbn [fst snd files stdin log]. rewrite !count_events_log. cbn [is_any_Prompt is_Run].
  rewrite bool_decide_eq_false_2 by (intros [=]). by rewrite Hf, Hs, Hpr, Hff.
Qed.

(** X8. The macOS run that succeeds: with Homebrew and ffmpeg found, an
    existing default config file holding a document the merge accepts and a
    key on the console, [main] returns normally (status 0), the default
    config file holds the merged document, every other file and the PATH
    variable are as before, and exactly the key has been read.  A Python
    version other than 3.11.11 only adds a call of uv, whose return code is
    ignored. *)
Theorem macos_run_merges_default_config
    (fuel : nat) (out1 out2 text key : string) (rest : list string)
    (config doc : json) (w : world) :
  platform_system h = "Darwin" ->
  (python_version h = "3.11.11" \/ exists rc out, subprocess h uv_run = Some (rc, out)) ->
  subprocess h ["which"; "brew"] = Some (0, out1) ->
  subprocess h ["which"; "ffmpeg"] = Some (0, out2) ->
  files w !! macos_config_path h = Some text ->
  stdin w = key :: rest ->
  json_load text = Some config ->
  (merge_entry h config key w).1 = Val doc ->
  let r := main h (S fuel) w in
  exit_status r.1 = Some 0
  /\ files r.2 = <[macos_config_path h := json_dump doc]> (files w)
  /\ stdin r.2 = rest
  /\ reg_PATH r.2 = reg_PATH w.
Proof.
  intros Hos Hpy Hbrew Hffmpeg Hfile Hin Hload Hdoc r. subst r.
  unfold main. rewrite Hos. cbn [String.eqb Ascii.eqb Bool.eqb].
  destruct (install_on_macOS_ready (S fuel) _ _ w Hpy Hbrew Hffmpeg) as (w3 & Hruns & ->).
  destruct (exit_on_error_merge fuel _ _ _ _ _ _ _ _ Hruns Hfile Hin Hload Hdoc)
    as (-> & Hrest).
  by split.
Qed.

(** X9. The Windows run that succeeds: with ffmpeg found and APPDATA set,
    the config file is looked for at APPDATA\Claude\claude_desktop_config.json
    (joined with the host's separator); when it holds a document the merge
    accepts and a key is on the console, [main] returns normally (status
    0), that file holds the merged document and the PATH variable is as
    before. *)
Theorem windows_run_merges_appdata_config
    (fuel : nat) (out appdata text key : string) (rest : list string)
    (config doc : json) (w : world) :
  platform_system h = "Windows" ->
  (python_version h = "3.11.11" \/ exists rc out, subprocess h uv_run = Some (rc, out)) ->
  subprocess h ["where"; "ffmpeg"] = Some (0, out) ->
  environ_APPDATA h = Some appdata ->
  files w !! windows_config_path h appdata = Some text ->
  stdin w = key :: rest ->
  json_load text = Some config ->
  (merge_entry h config key w).1 = Val doc ->
  let r := main h (S fuel) w in
  exit_status r.1 = Some 0
  /\ files r.2 = <[windows_config_path h appdata := json_dump doc]> (files w)
  /\ stdin r.2 = rest
  /\ reg_PATH r.2 = reg_PATH w.
Proof.
  intros Hos Hpy Hffmpeg Happ Hfile Hin Hload Hdoc r. subst r.
  unfold main. rewrite Hos. cbn [String.eqb Ascii.eqb Bool.eqb].
  destruct (install_on_windows_ready (S fuel) _ w Hpy Hffmpeg) as (w2 & Hruns & ->).
  rewrite Happ.
  destruct (exit_on_error_merge fuel _ _ _ _ _ _ _ _ Hruns Hfile Hin Hload Hdoc)
    as (-> & Hrest).
  by split.
Qed.

(** X10. On Windows an unset APPDATA is fatal after the ffmpeg check: the
    path cannot be built ([TypeError]), the run ends with status 1, nothing
    is asked on the console, no line is read and no file is changed. *)
Theorem windows_without_appdata_aborts (fuel : nat) (out : string) (w : world) :
  platform_system h = "Windows" ->
  (python_version h = "3.11.11" \/ exists rc out, subprocess h uv_run = Some (rc, out)) ->
  subprocess h ["where"; "ffmpeg"] = Some (0, out) ->
  environ_APPDATA h = None ->
  let r := main h fuel w in
  r.1 = Exc (SystemExit 1)
  /\ files r.2 = files w
  /\ stdin r.2 = stdin w
  /\ count_events is_any_Prompt r.2 = count_events is_any_Prompt w.
Proof.
  intros Hos Hpy Hffmpeg Happ r. subst r.
  unfold main. rewrite Hos. cbn [String.eqb Ascii.eqb Bool.eqb].
  destruct (install_on_windows_ready fuel _ w Hpy Hffmpeg) as (w2 & Hruns & ->).
  rewrite Happ. unfold exit_on_error, try_except, raise, sys_exit. cbn.
  pose proof (only_runs_count is_any_Prompt _ _ (fun _ => eq_refl) Hruns) as Hpr.
  destruct Hruns as (Hf & Hs & _). by rewrite Hf, Hs, Hpr.
Qed.

End Runs.

(** ** The Windows installer and the lookup of uvx *)

Lemma split_pieces_no_sep (sep : ascii) (s piece : string) :
  piece ∈ PyStr.split sep s -> PyStr.has_char sep piece = false.
Proof.
  revert piece. induction s as [|c s IH]; simpl; intros piece Hin.
  - apply list_elem_of_singleton in Hin. by subst.
  - destruct (Ascii.eqb c sep) eqn:Hc.
    + apply elem_of_cons in Hin as [->|Hin]; [reflexivity | by apply IH].
    + pose proof (split_not_nil sep s) as Hne.
      destruct (PyStr.split sep s) as [|q qs]; [congruence|].
      apply elem_of_cons in Hin as [->|Hin].
      * simpl. rewrite Hc. apply IH. by left.
      * apply IH. by right.
Qed.

Lemma rstrip_idempotent (s : string) : PyStr.rstrip (PyStr.rstrip s) = PyStr.rstrip s.
Proof.
  induction s as [|c s IH]; [reflexivity|]. simpl.
  destruct (PyStr.rstrip s) as [|k ks] eqn:Hk.
  - destruct (PyStr.is_ws c) eqn:Hc; [reflexivity|]. simpl. by rewrite Hc.
  - change (PyStr.rstrip (String c (String k ks)))
      with (match PyStr.rstrip (String k ks) with
            | EmptyString => if PyStr.is_ws c then EmptyString else String c EmptyString
            | kept => String c kept
            end).
    by rewrite IH.
Qed.

Lemma lstrip_rstrip_lstrip (s : string) :
  PyStr.lstrip (PyStr.rstrip (PyStr.lstrip s)) = PyStr.rstrip (PyStr.lstrip s).
Proof.
  assert (Hclean : forall t,
            match t with String c _ => PyStr.is_ws c = false | EmptyString => True end ->
            PyStr.lstrip (PyStr.rstrip t) = PyStr.rstrip t).
  { intros [|c t] Hc; [reflexivity|]. simpl.
    destruct (PyStr.rstrip t); simpl; rewrite ?Hc; simpl; by rewrite ?Hc. }
  apply Hclean. induction s as [|c s IH]; [done|]. simpl.
  destruct (PyStr.is_ws c) eqn:Hc; [exact IH | exact Hc].
Qed.

(** Stripping twice is stripping once. *)
Lemma strip_idempotent (s : string) : PyStr.strip (PyStr.strip s) = PyStr.strip s.
Proof. unfold PyStr.strip. by rewrite lstrip_rstrip_lstrip, rstrip_idempotent. Qed.

Section Installer.
Context (h : host).

(** X15. What the lookup of uvx can give: it raises nothing but
    [FileNotFoundError] (which or where cannot be started), it returns
    [None] only on a platform other than Linux, macOS and Windows, without
    running anything, and otherwise a string with no white space at either
    end; the files, the console input and the PATH variable are untouched. *)
Theorem get_uvx_path_outcomes (w : world) :
  let r := get_uvx_path h w in
  only_runs w r.2
  /\ (forall e, r.1 = Exc e -> e = FileNotFoundError)
  /\ (forall v, r.1 = Val v ->
        (v = JNull /\ r.2 = w
         /\ platform_system h <> "Linux" /\ platform_system h <> "Darwin"
         /\ platform_system h <> "Windows")
        \/ exists s, v = JStr s /\ PyStr.strip s = s).
Proof.
  intros r. subst r. split; [apply get_uvx_path_frame|].
  unfold get_uvx_path, subprocess_run. unfold_M.
  destruct (String.eqb_spec (platform_system h) "Linux") as [Hl|Hl];
    [|destruct (String.eqb_spec (platform_system h) "Darwin") as [Hd|Hd];
      [|destruct (String.eqb_spec (platform_system h) "Windows") as [Hw|Hw]]];
    cbn [orb];
    try (match goal with |- context [subprocess h ?c] =>
           destruct (subprocess h c) as [[rc out]|]; cbn;
             [destruct (rc =? 0); cbn|];
             (split; [by intros e [= <-] || by intros e|]);
             intros v [= <-]; right; eexists; split; try reflexivity;
             apply strip_idempotent
         end).
  cbn. split; [by intros e|]. intros v [= <-]. left. by repeat split.
Qed.

(** X11. Running the installer again changes nothing persistent: when the
    download, the extraction and the registry access go well and the ffmpeg
    directory holds no path separator, a second run downloads and extracts
    again but writes neither the PATH variable nor any file. *)
Theorem installer_rerun_changes_nothing
    (first_dir : string) (dirs : list string) (w : world) :
  urlretrieve_error h = None ->
  extractall_error h = None ->
  extracted_dirs h = first_dir :: dirs ->
  has_winreg h = true ->
  openkey_error h = None ->
  PyStr.has_char (os_pathsep h) (path_join h first_dir "bin") = false ->
  let r1 := install_ffmpeg_on_windows h w in
  let r2 := install_ffmpeg_on_windows h r1.2 in
  r2.1 = Val tt
  /\ reg_PATH r2.2 = reg_PATH r1.2
  /\ files r2.2 = files r1.2
  /\ count_events is_SetPath r2.2 = count_events is_SetPath r1.2
  /\ count_events is_WriteFile r2.2 = count_events is_WriteFile r1.2
  /\ count_events is_Download r2.2 = S (count_events is_Download r1.2).
Proof.
  intros Hurl Hzip Hdirs Hreg Hopen Hsep r1 r2. subst r2 r1.
  set (bin := path_join h first_dir "bin") in *.
  set (sep := os_pathsep h) in *.
  assert (Hin : bin ∈ PyStr.split sep
                  (default EmptyString (reg_PATH (install_ffmpeg_on_windows h w).2))).
  { rewrite (install_ffmpeg_on_windows_registers h _ _ _ Hurl Hzip Hdirs Hreg).
    fold bin. set (w0 := log Extract (log Download w)).
    destruct (register_bin_path_update h bin w0 Hopen) as [Hpresent Habsent].
    destruct (decide (bin ∈ PyStr.split sep (default EmptyString (reg_PATH w0))))
      as [Hin|Hout].
    - by rewrite (Hpresent Hin).
    - destruct (Habsent Hout) as (_ & -> & _ & _ & Hsplit & _). cbn [default from_option id].
      fold sep in Hsplit |- *.
      destruct (String.eqb_spec (default EmptyString (reg_PATH w0)) "") as [Hcur|Hcur].
      + rewrite (split_no_sep _ _ Hsep). by left.
      + rewrite (Hsplit Hcur), (split_no_sep _ _ Hsep).
        apply elem_of_app. right. by left. }
  rewrite (install_ffmpeg_on_windows_registers h _ _ (install_ffmpeg_on_windows h w).2
             Hurl Hzip Hdirs Hreg).
  fold bin. rewrite register_bin_path_present by done.
  cbn [fst snd]. rewrite !count_events_log. by cbn.
Qed.

(** X12. A path separator inside the ffmpeg directory defeats the check:
    no entry of a split value holds the separator, so the directory is
    never found among the entries and every run of the installer writes
    the PATH variable again, appending the directory once more. *)
Theorem installer_separator_in_directory
    (first_dir : string) (dirs : list string) (w : world) :
  urlretrieve_error h = None ->
  extractall_error h = None ->
  extracted_dirs h = first_dir :: dirs ->
  has_winreg h = true ->
  openkey_error h = None ->
  PyStr.has_char (os_pathsep h) (path_join h first_dir "bin") = true ->
  let bin := path_join h first_dir "bin" in
  let cur := default EmptyString (reg_PATH w) in
  let r := install_ffmpeg_on_windows h w in
  (bin ∉ PyStr.split (os_pathsep h) cur)
  /\ reg_PATH r.2 = Some (appended (os_pathsep h) cur bin)
  /\ count_events is_SetPath r.2 = S (count_events is_SetPath w).
Proof.
  intros Hurl Hzip Hdirs Hreg Hopen Hsep bin cur r. subst r.
  assert (Hout : bin ∉ PyStr.split (os_pathsep h) cur).
  { intros Hin. apply split_pieces_no_sep in Hin. unfold bin in Hin. congruence. }
  split; [exact Hout|].
  rewrite (install_ffmpeg_on_windows_registers h _ _ _ Hurl Hzip Hdirs Hreg).
  fold bin. set (w0 := log Extract (log Download w)).
  destruct (register_bin_path_update h bin w0 Hopen) as [_ Habsent].
  destruct (Habsent Hout) as (_ & Hnew & Hcount & _).
  split; [|exact Hcount]. rewrite Hnew. unfold appended. cbn [reg_PATH w0 log].
  fold cur. by destruct (cur =? "")%string.
Qed.

(** X13. A failure of the installer before the registry value is read
    leaves the PATH variable and the shell profile alone: when the download
    fails, or the extraction fails, or the archive holds no directory
    ([RuntimeError]), or the registry key cannot be opened, that exception
    is raised, the PATH variable has not been written and the shell profile
    reads as before.  (What the download and the extraction left on disk is
    not part of the statement.) *)
Theorem installer_failure_keeps_path_and_profile (e : exn) (w : world) :
  (urlretrieve_error h = Some e
   \/ (urlretrieve_error h = None /\ extractall_error h = Some e)
   \/ (urlretrieve_error h = None /\ extractall_error h = None
       /\ extracted_dirs h = [] /\ e = RuntimeError)
   \/ (urlretrieve_error h = None /\ extractall_error h = None
       /\ extracted_dirs h <> [] /\ has_winreg h = true
       /\ openkey_error h = Some e)) ->
  let r := install_ffmpeg_on_windows h w in
  r.1 = Exc e
  /\ reg_PATH r.2 = reg_PATH w
  /\ count_events is_SetPath r.2 = count_events is_SetPath w
  /\ files r.2 !! detect_shell_config h = files w !! detect_shell_config h.
Proof.
  intros Hfail r. subst r. unfold install_ffmpeg_on_windows. unfold_M.
  destruct Hfail as [->|[[-> ->]|[(-> & -> & -> & ->)|(-> & -> & Hdirs & -> & Hopen)]]];
    try by cbn.
  destruct (extracted_dirs h) as [|first_dir dirs]; [done|].
  cbn [is_ImportError]. unfold register_bin_path, raise_if. rewrite Hopen. by cbn.
Qed.

(** X14. The installer only ever appends to the shell profile that
    [detect_shell_config] names: whatever happens, a profile that was there
    keeps its old text as a prefix of the new one; and the installer reads
    no console input. *)
Theorem installer_only_appends_to_profile (w : world) :
  let r := install_ffmpeg_on_windows h w in
  (forall text, files w !! detect_shell_config h = Some text ->
     exists text', files r.2 !! detect_shell_config h = Some text'
                   /\ String.prefix text text' = true)
  /\ stdin r.2 = stdin w.
Proof.
  intros r.
  assert (Hsame : files r.2 = files w /\ stdin r.2 = stdin w ->
            (forall text, files w !! detect_shell_config h = Some text ->
               exists text', files r.2 !! detect_shell_config h = Some text'
                             /\ String.prefix text text' = true)
            /\ stdin r.2 = stdin w).
  { intros [-> ->]. split; [|done].
    intros text Htext. exists text. split; [exact Htext | apply prefix_refl]. }
  revert Hsame. subst r. unfold install_ffmpeg_on_windows. unfold_M.
  destruct (urlretrieve_error h) as [e1|]; [intros Hsame; by apply Hsame|].
  destruct (extractall_error h) as [e2|]; [intros Hsame; by apply Hsame|].
  destruct (extracted_dirs h) as [|first_dir dirs]; [intros Hsame; by apply Hsame|].
  destruct (has_winreg h); cbn [is_ImportError]; [|intros Hsame; by apply Hsame].
  set (w0 := log Extract (log Download w)). set (bin := path_join h first_dir "bin").
  unfold register_bin_path. unfold_M.
  destruct (openkey_error h); [intros Hsame; by apply Hsame|].
  destruct (bool_decide _); cbn [negb]; [intros Hsame; by apply Hsame|].
  set (new := if negb (default EmptyString (reg_PATH w0) =? "")%string
              then default EmptyString (reg_PATH w0)
                   +:+ String (os_pathsep h) EmptyString +:+ bin
              else bin).
  set (w1 := log (SetPath new) (with_reg_PATH (Some new) w0)).
  set (profile := detect_shell_config h).
  destruct (PyStr.contains marker (default EmptyString (files w1 !! profile))) eqn:Hm.
  { rewrite (update_shell_config_present _ _ _ Hm). intros Hsame. by apply Hsame. }
  rewrite (update_shell_config_absent _ _ _ Hm). intros _. cbn [fst snd files stdin log with_files].
  split; [|reflexivity].
  intros text Htext. rewrite lookup_insert_eq. eexists. split; [reflexivity|].
  change (files w1 !! profile) with (files w !! profile). rewrite Htext.
  apply prefix_append.
Qed.

End Installer.

(** ** The further properties at concrete inputs *)

Section MoreInstances.
Import Scenario Cases MoreCases.
#[local] Existing Instance RefCodec.codec.

Local Ltac compute_eq := vm_compute; reflexivity.

Lemma update_config_file_rejects_malformed_witness :
  files (config_world doc_list_servers ["KEY"]) !! config_path
    = Some (json_dump doc_list_servers)
  /\ json_load (json_dump doc_list_servers) = Some doc_list_servers
  /\ not_dict_nor_None (JArr [JStr "Other"]) = true
  /\ (update_config_file (mac 0 0) 1 config_path
        (config_world doc_list_servers ["KEY"])).1 = Exc TypeError
  /\ files (update_config_file (mac 0 0) 1 config_path
              (config_world doc_list_servers ["KEY"])).2
     = files (config_world doc_list_servers ["KEY"]).
Proof.
  assert (H1 : files (config_world doc_list_servers ["KEY"]) !! config_path
               = Some (json_dump doc_list_servers)) by compute_eq.
  assert (H2 : json_load (json_dump doc_list_servers) = Some doc_list_servers)
    by compute_eq.
  assert (H3 : (get_uvx_path (mac 0 0) (config_world doc_list_servers ["KEY"])).1
               = Val uvx_found) by compute_eq.
  destruct (update_config_file_rejects_malformed (mac 0 0) 0 config_path
              (json_dump doc_list_servers) "KEY" [] doc_list_servers
              (config_world doc_list_servers ["KEY"]) H1 eq_refl H2) as [_ Hservers].
  destruct (Hservers _ (JArr [JStr "Other"]) uvx_found eq_refl eq_refl eq_refl H3)
    as (Hexc & Hfiles & _).
  exact (conj H1 (conj H2 (conj eq_refl (conj Hexc Hfiles)))).
Defined.

Lemma merge_entry_replaces_in_place_witness :
  dict_get "mcpServers" custom_document = Some (JObj custom_servers)
  /\ (get_uvx_path (mac 0 0) (config_world doc_with_servers ["KEY"])).1 = Val uvx_found
  /\ exists d1 servers1,
       (merge_entry (mac 0 0) (JObj custom_document) "KEY"
          (config_world doc_with_servers ["KEY"])).1 = Val (JObj d1)
       /\ dict_get "Murf" servers1 = Some (server_entry uvx_found "KEY")
       /\ dict_keys servers1 = ["Murf"; "Other"].
Proof.
  assert (H1 : dict_get "mcpServers" custom_document = Some (JObj custom_servers))
    by reflexivity.
  assert (H2 : (get_uvx_path (mac 0 0) (config_world doc_with_servers ["KEY"])).1
               = Val uvx_found) by compute_eq.
  destruct (merge_entry_replaces_in_place (mac 0 0) custom_document custom_servers
              uvx_found "KEY" (config_world doc_with_servers ["KEY"]) H1 H2)
    as (d1 & servers1 & Hm & _ & Hmurf & Hkeep & _).
  destruct (Hkeep _ eq_refl) as [Hkeys _].
  split; [exact H1|]. split; [exact H2|].
  exists d1, servers1. split; [exact Hm|]. split; [exact Hmurf | exact Hkeys].
Defined.

Lemma macos_without_brew_aborts_witness :
  platform_system (mac_brew 1) = "Darwin"
  /\ (exists rc out, subprocess (mac_brew 1) ["which"; "brew"] = Some (rc, out) /\ rc <> 0)
  /\ (main (mac_brew 1) 2 (config_world doc_with_servers ["KEY"])).1 = Exc (SystemExit 1)
  /\ stdin (main (mac_brew 1) 2 (config_world doc_with_servers ["KEY"])).2 = ["KEY"].
Proof.
  assert (H2 : exists rc out,
             subprocess (mac_brew 1) ["which"; "brew"] = Some (rc, out) /\ rc <> 0)
    by (exists 1, EmptyString; split; [reflexivity | discriminate]).
  destruct (macos_without_brew_aborts (mac_brew 1) 2
              (config_world doc_with_servers ["KEY"]) eq_refl (or_intror H2))
    as (Hexit & _ & Hstdin & _).
  exact (conj eq_refl (conj H2 (conj Hexit Hstdin))).
Defined.

Lemma macos_run_merges_default_config_witness :
  platform_system (mac_brew 0) = "Darwin"
  /\ (exists rc out, subprocess (mac_brew 0) uv_run = Some (rc, out))
  /\ files (config_world doc_with_servers ["KEY"]) !! macos_config_path (mac_brew 0)
     = Some (json_dump doc_with_servers)
  /\ json_load (json_dump doc_with_servers) = Some doc_with_servers
  /\ (merge_entry (mac_brew 0) doc_with_servers "KEY"
        (config_world doc_with_servers ["KEY"])).1 = Val merged_with_servers
  /\ exit_status (main (mac_brew 0) 1 (config_world doc_with_servers ["KEY"])).1 = Some 0
  /\ files (main (mac_brew 0) 1 (config_world doc_with_servers ["KEY"])).2
     = <[macos_config_path (mac_brew 0) := json_dump merged_with_servers]>
         (files (config_world doc_with_servers ["KEY"])).
Proof.
  assert (H1 : exists rc out, subprocess (mac_brew 0) uv_run = Some (rc, out))
    by (by exists 2, EmptyString).
  assert (H2 : files (config_world doc_with_servers ["KEY"]) !! macos_config_path (mac_brew 0)
               = Some (json_dump doc_with_servers)) by compute_eq.
  assert (H3 : json_load (json_dump doc_with_servers) = Some doc_with_servers)
    by compute_eq.
  assert (H4 : (merge_entry (mac_brew 0) doc_with_servers "KEY"
                  (config_world doc_with_servers ["KEY"])).1 = Val merged_with_servers)
    by compute_eq.
  destruct (macos_run_merges_default_config (mac_brew 0) 0 EmptyString
              ("/usr/local/bin/ffmpeg" +:+ PyStr.nl) (json_dump doc_with_servers) "KEY" []
              doc_with_servers merged_with_servers (config_world doc_with_servers ["KEY"])
              eq_refl (or_intror H1) eq_refl eq_refl H2 eq_refl H3 H4)
    as (Hexit & Hfiles & _).
  exact (conj eq_refl (conj H1 (conj H2 (conj H3 (conj H4 (conj Hexit Hfiles)))))).
Defined.

Lemma windows_run_merges_appdata_config_witness :
  platform_system (windows_ready (Some roaming)) = "Windows"
  /\ environ_APPDATA (windows_ready (Some roaming)) = Some roaming
  /\ windows_config_path (windows_ready (Some roaming)) roaming = appdata_config
  /\ json_load (json_dump doc_with_servers) = Some doc_with_servers
  /\ (merge_entry (windows_ready (Some roaming)) doc_with_servers "KEY"
        (world_with appdata_config (json_dump doc_with_servers) ["KEY"])).1
     = Val merged_on_windows
  /\ exit_status (main (windows_ready (Some roaming)) 1
                    (world_with appdata_config (json_dump doc_with_servers) ["KEY"])).1
     = Some 0.
Proof.
  assert (H1 : files (world_with appdata_config (json_dump doc_with_servers) ["KEY"])
                 !! windows_config_path (windows_ready (Some roaming)) roaming
               = Some (json_dump doc_with_servers)) by compute_eq.
  assert (H3 : json_load (json_dump doc_with_servers) = Some doc_with_servers)
    by compute_eq.
  assert (H4 : (merge_entry (windows_ready (Some roaming)) doc_with_servers "KEY"
                  (world_with appdata_config (json_dump doc_with_servers) ["KEY"])).1
               = Val merged_on_windows) by compute_eq.
  destruct (windows_run_merges_appdata_config (windows_ready (Some roaming)) 0
              ("C:\ffmpeg\bin\ffmpeg.exe" +:+ PyStr.nl) roaming
              (json_dump doc_with_servers) "KEY" [] doc_with_servers merged_on_windows
              (world_with appdata_config (json_dump doc_with_servers) ["KEY"])
              eq_refl (or_introl eq_refl) eq_refl eq_refl H1 eq_refl H3 H4)
    as (Hexit & _).
  exact (conj eq_refl (conj eq_refl (conj eq_refl (conj H3 (conj H4 Hexit))))).
Defined.

Lemma windows_without_appdata_aborts_witness :
  platform_system (windows_ready None) = "Windows"
  /\ environ_APPDATA (windows_ready None) = None
  /\ (main (windows_ready None) 2
        (world_with appdata_config (json_dump doc_with_servers) ["KEY"])).1
     = Exc (SystemExit 1)
  /\ stdin (main (windows_ready None) 2
              (world_with appdata_config (json_dump doc_with_servers) ["KEY"])).2
     = ["KEY"].
Proof.
  destruct (windows_without_appdata_aborts (windows_ready None) 2
              ("C:\ffmpeg\bin\ffmpeg.exe" +:+ PyStr.nl)
              (world_with appdata_config (json_dump doc_with_servers) ["KEY"])
              eq_refl (or_introl eq_refl) eq_refl eq_refl)
    as (Hexit & _ & Hstdin & _).
  exact (conj eq_refl (conj eq_refl (conj Hexit Hstdin))).
Defined.

Lemma installer_rerun_changes_nothing_witness :
  extracted_dirs (windows_installer None build_dir) = [build_dir]
  /\ PyStr.has_char ";" (path_join (windows_installer None build_dir) build_dir "bin") = false
  /\ reg_PATH (install_ffmpeg_on_windows (windows_installer None build_dir)
                 (install_ffmpeg_on_windows (windows_installer None build_dir) unpatched).2).2
     = Some ("C:\Windows;" +:+ ffmpeg_bin)
  /\ count_events is_SetPath
       (install_ffmpeg_on_windows (windows_installer None build_dir)
          (install_ffmpeg_on_windows (windows_installer None build_dir) unpatched).2).2
     = 1%nat.
Proof.
  assert (H2 : PyStr.has_char ";"
                 (path_join (windows_installer None build_dir) build_dir "bin") = false)
    by compute_eq.
  destruct (installer_rerun_changes_nothing (windows_installer None build_dir)
              build_dir [] unpatched eq_refl eq_refl eq_refl eq_refl eq_refl H2)
    as (_ & Hreg & _ & Hcount & _).
  split; [reflexivity|]. split; [exact H2|].
  split; [rewrite Hreg | rewrite Hcount]; compute_eq.
Defined.

Lemma installer_separator_in_directory_witness :
  extracted_dirs (windows_installer None odd_dir) = [odd_dir]
  /\ PyStr.has_char ";" (path_join (windows_installer None odd_dir) odd_dir "bin") = true
  /\ reg_PATH (install_ffmpeg_on_windows (windows_installer None odd_dir)
                 (install_ffmpeg_on_windows (windows_installer None odd_dir) unpatched).2).2
     = Some "C:\Windows;C:\ffmpeg\ffmpeg;7.1\bin;C:\ffmpeg\ffmpeg;7.1\bin".
Proof.
  assert (H2 : PyStr.has_char ";"
                 (path_join (windows_installer None odd_dir) odd_dir "bin") = true)
    by compute_eq.
  destruct (installer_separator_in_directory (windows_installer None odd_dir)
              odd_dir []
              (install_ffmpeg_on_windows (windows_installer None odd_dir) unpatched).2
              eq_refl eq_refl eq_refl eq_refl eq_refl H2)
    as (_ & Hreg & _).
  split; [reflexivity|]. split; [exact H2|]. rewrite Hreg. compute_eq.
Defined.

Lemma installer_failure_keeps_path_and_profile_witness :
  urlretrieve_error (windows_installer (Some OSError) build_dir) = Some OSError
  /\ (install_ffmpeg_on_windows (windows_installer (Some OSError) build_dir) unpatched).1
     = Exc OSError
  /\ reg_PATH (install_ffmpeg_on_windows (windows_installer (Some OSError) build_dir)
                 unpatched).2
     = reg_PATH unpatched.
Proof.
  destruct (installer_failure_keeps_path_and_profile
              (windows_installer (Some OSError) build_dir)
              OSError unpatched (or_introl eq_refl)) as (Hexc & Hreg & _).
  exact (conj eq_refl (conj Hexc Hreg)).
Defined.

End MoreInstances.
